(** * Clean Spark Spread dashboard ([css_calculator.py])

    A shallow embedding of the computational part of the dashboard script:
    the date-range filter, the column-wise Clean Spark Spread formula and the
    two scalar aggregates, together with the properties the specification
    states about them.

    Modelling choices.
    - A pandas [DataFrame] is column-major: a datetime index and a finite map
      from column names to equally long columns of cells.
    - A cell is [option Q]: [None] is pandas' missing value (NaN), [Some q] a
      number.  Numbers are exact rationals; the script's binary64 rounding is
      not part of this model, except in the [B64] module, which evaluates the
      formula with the IEEE 754 operations of [SpecFloat] on the documented
      scenarios.
    - Python exceptions are values of type [error]; the script runs in a small
      state-and-error monad over a store of objects, so that aliasing between
      the loaded frame and the filtered frame is explicit. *)

From Stdlib Require Import ZArith QArith Qround Lia Lqa List.
From Stdlib Require Import Floats.SpecFloat Sorting.Sorted.
From stdpp Require Import gmap strings list fin_maps pretty.

Local Open Scope Z_scope.

(** ** Timestamps, calendar dates and clock times *)

(** A timestamp of the (timezone-naive) [DatetimeIndex]: microseconds since
    1970-01-01T00:00:00, the resolution of Python's [datetime]. *)
Definition Timestamp := Z.

(** A calendar date, as the number of days since 1970-01-01.  Python orders
    [datetime.date] values chronologically, which is the order of [Z] here. *)
Definition Date := Z.

Definition us_per_day : Z := 86400 * 1000000.

(** [Timestamp.date()]: the calendar date, ignoring the time of day. *)
Definition date_of (t : Timestamp) : Date := t / us_per_day.

(** Microseconds elapsed since midnight, the clock time of [t]. *)
Definition time_of (t : Timestamp) : Z := t mod us_per_day.

(** Days since the epoch of the proleptic Gregorian date [y-m-d]. *)
Definition days_from_civil (y m d : Z) : Date :=
  let y' := if m <=? 2 then y - 1 else y in
  let era := y' / 400 in
  let yoe := y' - era * 400 in
  let mp := if m <=? 2 then m + 9 else m - 3 in
  let doy := (153 * mp + 2) / 5 + d - 1 in
  let doe := yoe * 365 + yoe / 4 - yoe / 100 + doy in
  era * 146097 + doe - 719468.

(** [datetime.time(h, m)] as microseconds since midnight. *)
Definition clock (h m : Z) : Z := (h * 60 + m) * 60 * 1000000.

(** [pd.to_datetime("2025-04-01").date()] *)
Definition floor_date : Date := days_from_civil 2025 4 1.

(** ** Cells and frames *)

(** One cell of a numeric column; [None] is NaN. *)
Definition value := option Q.

Record DataFrame := mkDF {
  index : list Timestamp;
  columns : gmap string (list value)
}.

(** Python exceptions the script can raise in the modelled part. *)
Inductive error :=
| KeyError (col : string)
| ValueError
| ZeroDivisionError
| StreamlitAPIException
| Dangling (* a name bound to no object; no run from a well-formed store raises it *).

Inductive result (A : Type) :=
| Ok (a : A)
| Err (e : error).
Arguments Ok {A} a.
Arguments Err {A} e.

(** [df.index.date] *)
Definition index_dates (df : DataFrame) : list Date := map date_of (index df).

(** Python's [min] and [max] on a sequence: [ValueError] when it is empty. *)
Definition py_min (l : list Z) : result Z :=
  match l with
  | [] => Err ValueError
  | x :: l' => Ok (foldl Z.min x l')
  end.

Definition py_max (l : list Z) : result Z :=
  match l with
  | [] => Err ValueError
  | x :: l' => Ok (foldl Z.max x l')
  end.

(** Lines 30-32: the bounds offered by the date picker, on a datetime index.
    [min] of no date raises [ValueError].  (A file with a header and no row
    does not get that far: its index is not a datetime index, and line 30
    fails on it.  Nothing below is stated about a run on such a file.) *)
Definition min_date (df : DataFrame) : result Date :=
  match py_min (index_dates df) with
  | Ok d => Ok (Z.max d floor_date)
  | Err e => Err e
  end.

Definition max_date (df : DataFrame) : result Date := py_max (index_dates df).

(** Lines 34-36: [st.sidebar.date_input] with the default value
    [[lo, hi]] and the bounds [lo] and [hi].  Streamlit refuses a lower bound
    above the upper one; otherwise the widget returns what the user picked,
    or its default.  (A selection in progress, which Streamlit returns as a
    single date and on which line 34 raises, is not represented: where a run
    raises here the script raises, but the script can raise on more.) *)
Definition date_input (lo hi : Date) (picked : option (Date * Date))
  : result (Date * Date) :=
  if hi <? lo then Err StreamlitAPIException else Ok (default (lo, hi) picked).

(** Line 39: [(df.index.date >= start_date) & (df.index.date <= end_date)] *)
Definition date_mask (df : DataFrame) (start_date end_date : Date) : list bool :=
  zip_with andb
    (map (fun d => start_date <=? d) (index_dates df))
    (map (fun d => d <=? end_date) (index_dates df)).

(** Boolean-mask selection on one array. *)
Fixpoint select {A : Type} (mask : list bool) (xs : list A) : list A :=
  match mask, xs with
  | b :: mask', x :: xs' => if b then x :: select mask' xs' else select mask' xs'
  | _, _ => []
  end.

(** [df[mask]]: the same selection on the index and on every column. *)
Definition getitem_mask (df : DataFrame) (mask : list bool) : DataFrame :=
  mkDF (select mask (index df)) (select mask <$> columns df).

(** The value of [df_filtered] after lines 39-41, as a function of [df]. *)
Definition filter_dates (df : DataFrame) (start_date end_date : Date) : DataFrame :=
  getitem_mask df (date_mask df start_date end_date).

(** ** Widgets *)

(** The options of the two select boxes (lines 16-20). *)
Inductive Country := FR | BE.

Inductive GasIndex := PEG | TTF | THE | CEGH_VTP | CZ_VTP | ETF | NBP | PVB | ZTP.

Definition country_column (c : Country) : string :=
  match c with FR => "FR" | BE => "BE" end.

Definition gas_column (g : GasIndex) : string :=
  match g with
  | PEG => "PEG" | TTF => "TTF" | THE => "THE"
  | CEGH_VTP => "CEGH VTP" | CZ_VTP => "CZ VTP"
  | ETF => "ETF" | NBP => "NBP" | PVB => "PVB" | ZTP => "ZTP"
  end.

(** What the sidebar widgets return in one run of the script. *)
Record Inputs := mkInputs {
  country : Country;
  gas_index : GasIndex;
  efficiency_pct : Z;             (* the integer slider of line 22 *)
  emission_factor_th : Q;
  variable_cost : Q;
  date_range : option (Date * Date) (* [None]: the picker's default is kept *)
}.

(** Lines 21-23: [slider(...) / 100], Python's true division of two ints. *)
Definition efficiency_of_pct (pct : Z) : Q := inject_Z pct / 100.

Definition efficiency (inp : Inputs) : Q := efficiency_of_pct (efficiency_pct inp).

(** The constraints the widgets enforce on what they return: the slider
    bounds of lines 22 and 25. *)
Definition slider_ok (inp : Inputs) : Prop :=
  30 <= efficiency_pct inp <= 65 /\
  (1 # 20 <= emission_factor_th inp <= 1 # 4)%Q.

(** ** Errors as a monad *)

#[global] Instance result_ret : MRet result := fun _ a => Ok a.

#[global] Instance result_bind : MBind result := fun _ _ f m =>
  match m with
  | Ok a => f a
  | Err e => Err e
  end.

(** ** The formula, pointwise *)

(** The shape of lines 45-50 at one timestamp, over any arithmetic:
    [market - gas / efficiency - carbon * (emission_factor_th / efficiency)
     - variable_cost], with Python's left-to-right grouping. *)
Section Formula.
Context {F : Type} (sub mul div : F -> F -> F).

Definition css_formula (market gas carbon eff ef vc : F) : F :=
  sub (sub (sub market (div gas eff)) (mul carbon (div ef eff))) vc.
End Formula.


(** ** Column arithmetic *)

(** Binary64 cells hold NaN for a missing observation and every operation
    with a NaN operand yields NaN. *)
Definition cell_sub (a b : value) : value :=
  match a, b with
  | Some x, Some y => Some (x - y)%Q
  | _, _ => None
  end.

Definition cell_mul (a b : value) : value :=
  match a, b with
  | Some x, Some y => Some (x * y)%Q
  | _, _ => None
  end.

(** A cell divided by a scalar.  numpy returns an infinity or NaN for a zero
    divisor; no rational stands for those, the cell is [None]. *)
Definition cell_div (a : value) (d : Q) : value :=
  match a with
  | Some x => if Qeq_bool d 0 then None else Some (x / d)%Q
  | None => None
  end.

(** Series arithmetic.  The operands of lines 45-50 are columns of the same
    frame, so index alignment is positional. *)
Definition series_sub (a b : list value) : list value := zip_with cell_sub a b.

Definition series_div_scalar (a : list value) (d : Q) : list value :=
  map (fun v => cell_div v d) a.

Definition series_mul_scalar (a : list value) (k : Q) : list value :=
  map (fun v => cell_mul v (Some k)) a.

Definition series_sub_scalar (a : list value) (k : Q) : list value :=
  map (fun v => cell_sub v (Some k)) a.

(** Python's [/] on two floats raises on a zero divisor. *)
Definition float_div (a b : Q) : result Q :=
  if Qeq_bool b 0 then Err ZeroDivisionError else Ok (a / b)%Q.

(** [df[name]] *)
Definition getitem (df : DataFrame) (name : string) : result (list value) :=
  match columns df !! name with
  | Some s => Ok s
  | None => Err (KeyError name)
  end.

(** [df[name] = s] *)
Definition setitem (df : DataFrame) (name : string) (s : list value) : DataFrame :=
  mkDF (index df) (<[name := s]> (columns df)).

(** Lines 45-50, the right-hand side, in Python's evaluation order. *)
Definition css_column (f : DataFrame) (inp : Inputs) : result (list value) :=
  market ← getitem f (country_column (country inp));
  gas ← getitem f (gas_column (gas_index inp));
  let fuel := series_div_scalar gas (efficiency inp) in
  let spark := series_sub market fuel in
  carbon ← getitem f "EUA Prices";
  k ← float_div (emission_factor_th inp) (efficiency inp);
  let co2 := series_mul_scalar carbon k in
  mret (series_sub_scalar (series_sub spark co2) (variable_cost inp)).

(** ** Aggregates *)

(** The observations of a series, NaN dropped. *)
Definition present (s : list value) : list Q := omap id s.

Definition Qsum (l : list Q) : Q := foldr Qplus 0%Q l.

(** [Series.mean()]: pandas skips NaN; the mean of no observation is NaN. *)
Definition series_mean (s : list value) : value :=
  match present s with
  | [] => None
  | xs => Some (Qsum xs / inject_Z (Z.of_nat (length xs)))%Q
  end.

(** Rounding to the nearest integer, ties to even. *)
Definition round_half_even (q : Q) : Z :=
  let f := Qfloor q in
  match ((q - inject_Z f) ?= 1 # 2)%Q with
  | Lt => f
  | Gt => f + 1
  | Eq => if Z.even f then f else f + 1
  end.

(** [round(x, 2)] on exact rationals: the nearest whole number of hundredths,
    ties to even; NaN stays NaN.  The program rounds in binary64, by
    multiplying by 100, rounding to an integer and dividing by 100
    ([B64.round2] below); the two agree on a mean that is a whole number of
    hundredths, and need not agree within half a hundredth of a tie. *)
Definition round2 (v : value) : value :=
  match v with
  | Some q => Some (inject_Z (round_half_even (q * 100)) / 100)%Q
  | None => None
  end.

(** [df.between_time(start, end)] with both ends included (the default).
    A window whose start is after its end wraps around midnight. *)
Definition time_mask (idx : list Timestamp) (start_time end_time : Z) : list bool :=
  map (fun t =>
         if start_time <=? end_time
         then (start_time <=? time_of t) && (time_of t <=? end_time)
         else (start_time <=? time_of t) || (time_of t <=? end_time)) idx.

Definition between_time (f : DataFrame) (start_time end_time : Z) : DataFrame :=
  getitem_mask f (time_mask (index f) start_time end_time).

(** ** Display *)

(** The text of a float that is a multiple of 0.01, as an f-string prints it:
    the shortest decimal that reads back, with at least one fractional digit.
    (Fixed notation, which Python uses below 1e16.  A negative value that
    rounds to zero prints as -0.0 in Python; the sign of zero is not
    represented here.) *)
Definition fmt_hundredths (k : Z) : string :=
  let a := Z.abs k in
  let frac := a mod 100 in
  (if k <? 0 then "-" else "") +:+ pretty (Z.to_N (a / 100)) +:+ "." +:+
  (if frac mod 10 =? 0 then pretty (Z.to_N (frac / 10))
   else pretty (Z.to_N (frac / 10)) +:+ pretty (Z.to_N (frac mod 10))).

(** [f"{x}"] for a rounded aggregate. *)
Definition fmt (v : value) : string :=
  match v with
  | None => "nan"
  | Some q => fmt_hundredths (Qfloor (q * 100))
  end.

(** ** The formula in binary64

    Python floats and numpy [float64] cells are IEEE 754 binary64 numbers.
    [SpecFloat] gives their operations as functions on integers, rounding to
    nearest with ties to even. *)
Module B64.
Definition prec : Z := 53.
Definition emax : Z := 1024.

Definition of_Z (n : Z) : spec_float := binary_normalize prec emax n 0 false.

Definition sub : spec_float -> spec_float -> spec_float := SFsub prec emax.
Definition mul : spec_float -> spec_float -> spec_float := SFmul prec emax.
Definition div : spec_float -> spec_float -> spec_float := SFdiv prec emax.
Definition leb : spec_float -> spec_float -> bool := SFleb.

(** The float a decimal literal [n / d] denotes (the nearest one), also the
    result of Python's [n / d] on two small ints. *)
Definition ratio (n d : Z) : spec_float := div (of_Z n) (of_Z d).

Definition css : spec_float -> spec_float -> spec_float ->
                 spec_float -> spec_float -> spec_float -> spec_float :=
  css_formula sub mul div.

(** Line 22 on floats: the integer slider value over 100. *)
Definition efficiency_of_pct (pct : Z) : spec_float := ratio pct 100.

(** Addition, which the sum of a mean uses. *)
Definition add : spec_float -> spec_float -> spec_float := SFadd prec emax.

(** The real number a finite float holds. *)
Definition to_Q (x : spec_float) : Q :=
  match x with
  | S754_finite s m e => (inject_Z (cond_Zopp s (Zpos m)) * 2 ^ e)%Q
  | _ => 0%Q
  end.

(** [numpy.rint]: the nearest integer, ties to even.  A float whose exponent
    is not negative is an integer already; a zero result keeps the sign. *)
Definition rint (x : spec_float) : spec_float :=
  match x with
  | S754_finite s m e =>
      if 0 <=? e then x
      else let k := round_half_even (to_Q x) in
           if k =? 0 then S754_zero s else of_Z k
  | _ => x
  end.

(** Lines 114 and 115 on floats: [round(x, 2)] on the [numpy.float64] a
    pandas mean is.  numpy multiplies by 100, rounds to an integer and
    divides by 100, each step rounded to binary64. *)
Definition round2 (x : spec_float) : spec_float :=
  div (rint (mul x (of_Z 100))) (of_Z 100).
End B64.

(** ** The script, over a store of objects *)

(** Python names denote objects; a frame is mutated in place through any name
    bound to it.  The store maps object identities to frames. *)
Definition loc := positive.

Abbreviation Store := (gmap loc DataFrame).

(** A run returns a value or raises, and leaves a store either way. *)
Definition Script (A : Type) : Type := Store -> result A * Store.

#[global] Instance script_ret : MRet Script := fun _ a σ => (Ok a, σ).

#[global] Instance script_bind : MBind Script := fun _ _ f m σ =>
  match m σ with
  | (Ok a, σ') => f a σ'
  | (Err e, σ') => (Err e, σ')
  end.

(** A pure, fallible computation inside the script. *)
Definition lift {A : Type} (r : result A) : Script A := fun σ => (r, σ).

(** A new object, at an identity no live object has. *)
Definition alloc (d : DataFrame) : Script loc := fun σ =>
  let l := fresh (dom σ) in (Ok l, <[l := d]> σ).

Definition load (l : loc) : Script DataFrame := fun σ =>
  match σ !! l with
  | Some d => (Ok d, σ)
  | None => (Err Dangling, σ)
  end.

(** In-place update of the object at [l]. *)
Definition store (l : loc) (d : DataFrame) : Script unit := fun σ =>
  match σ !! l with
  | Some _ => (Ok tt, <[l := d]> σ)
  | None => (Err Dangling, σ)
  end.

(** [x.copy()] *)
Definition copy (l : loc) : Script loc := d ← load l; alloc d.

(** What one run leaves for the page: the name [df_filtered], the two
    aggregates and their text in the metrics block. *)
Record Outputs := mkOutputs {
  df_filtered : loc;
  avg_css : value;
  peak_css : value;
  avg_text : string;
  peak_text : string
}.

(** The script from line 30 on, [df] being bound to the loaded dataset, in
    the sections its comments name.  The widgets' return values are the
    [inp] of the run; the chart and the table only read [df_filtered] and
    are left out. *)

(** Date selection, lines 30-36. *)
Definition date_selection (inp : Inputs) (df : loc) : Script (Date * Date) :=
  d ← load df;
  lo ← lift (min_date d);                                   (* line 31 *)
  hi ← lift (max_date d);                                   (* line 32 *)
  lift (date_input lo hi (date_range inp)).                 (* lines 34-36 *)

(** Filter dataframe by date, lines 39-41. *)
Definition filter_by_date (df : loc) (start_date end_date : Date) : Script loc :=
  d ← load df;
  masked ← alloc (getitem_mask d (date_mask d start_date end_date)); (* df[mask] *)
  df_filtered ← copy masked;                                (* .copy() *)
  f ← load df_filtered;
  _ ← store df_filtered (mkDF (index f) (columns f));       (* line 41 *)
  mret df_filtered.

(** Calculate Clean Spark Spread, lines 45-50. *)
Definition calculate_css (inp : Inputs) (df_filtered : loc) : Script unit :=
  f ← load df_filtered;
  css ← lift (css_column f inp);
  store df_filtered (setitem f "CSS" css).

(** The metrics, lines 110-115. *)
Definition metrics (df_filtered : loc) : Script (value * value) :=
  f ← load df_filtered;
  peak ← alloc (between_time f (clock 8 0) (clock 20 0));   (* line 111 *)
  p ← load peak;
  _ ← lift (getitem p "CSS");
  css_all ← lift (getitem f "CSS");                         (* line 114 *)
  let avg := round2 (series_mean css_all) in
  peak ← alloc (between_time f (clock 8 0) (clock 20 0));   (* line 115 *)
  p ← load peak;
  css_peak ← lift (getitem p "CSS");
  mret (avg, round2 (series_mean css_peak)).

Definition script (inp : Inputs) (df : loc) : Script Outputs :=
  range ← date_selection inp df;
  df_filtered ← filter_by_date df range.1 range.2;
  _ ← calculate_css inp df_filtered;
  m ← metrics df_filtered;
  mret (mkOutputs df_filtered m.1 m.2 (fmt m.1) (fmt m.2)).

(** ** The chart and the table *)

(** [Series.clip(lower=...)] and [Series.clip(upper=...)]: a cell below the
    lower bound becomes the bound, a cell above the upper bound becomes the
    bound, NaN stays NaN. *)
Definition cell_clip_lower (lower : Q) (v : value) : value :=
  match v with
  | Some x => Some (if Qle_bool lower x then x else lower)
  | None => None
  end.

Definition cell_clip_upper (upper : Q) (v : value) : value :=
  match v with
  | Some x => Some (if Qle_bool x upper then x else upper)
  | None => None
  end.

Definition series_clip_lower (s : list value) (lower : Q) : list value :=
  map (cell_clip_lower lower) s.

Definition series_clip_upper (s : list value) (upper : Q) : list value :=
  map (cell_clip_upper upper) s.

(** A trace of the plotly figure: its kind, its name and its two axes. *)
Inductive TraceKind := Scatter | Bar.

Record Trace := mkTrace {
  trace_kind : TraceKind;
  trace_name : string;
  trace_x : list Timestamp;
  trace_y : list value
}.

(** Lines 61-97: the line of the spread and the two shaded bar traces, in the
    order [fig.add_trace] receives them.  Colours and layout are left out. *)
Definition chart (df_filtered : loc) : Script (list Trace) :=
  f ← load df_filtered;
  _ ← lift (getitem f "CSS");                               (* line 61 *)
  y ← lift (getitem f "CSS");                               (* line 70 *)
  let line := mkTrace Scatter "Clean Spark Spread" (index f) y in
  y ← lift (getitem f "CSS");                               (* line 81 *)
  let positive := mkTrace Bar "Positive CSS" (index f) (series_clip_lower y 0) in
  y ← lift (getitem f "CSS");                               (* line 92 *)
  let negative := mkTrace Bar "Negative CSS" (index f) (series_clip_upper y 0) in
  mret [line; positive; negative].

(** [df[[n1, n2, ...]]]: a new frame with the listed columns and the same
    index.  pandas raises [KeyError] when a label is missing (its message
    lists every missing label; the first one is kept here). *)
Fixpoint pick_columns (cols : gmap string (list value)) (names : list string)
  : result (gmap string (list value)) :=
  match names with
  | [] => Ok ∅
  | n :: names' =>
      match cols !! n with
      | Some s => rest ← pick_columns cols names'; mret (<[n := s]> rest)
      | None => Err (KeyError n)
      end
  end.

Definition getitem_list (f : DataFrame) (names : list string) : result DataFrame :=
  cols ← pick_columns (columns f) names;
  mret (mkDF (index f) cols).

(** The columns of the raw-data table, line 135. *)
Definition table_columns (inp : Inputs) : list string :=
  [country_column (country inp); gas_column (gas_index inp); "EUA Prices"; "CSS"].

(** Lines 134-135; the body of the expander runs on every run. *)
Definition raw_data_table (inp : Inputs) (df_filtered : loc) : Script loc :=
  f ← load df_filtered;
  t ← lift (getitem_list f (table_columns inp));
  alloc t.

(** Everything one run hands to the page. *)
Record Page := mkPage {
  page_outputs : Outputs;
  page_figure : list Trace;
  page_table : loc
}.

(** The whole script from line 30 on, in source order: the chart comes
    before the metrics, the table after them. *)
Definition page (inp : Inputs) (df : loc) : Script Page :=
  range ← date_selection inp df;
  df_filtered ← filter_by_date df range.1 range.2;
  _ ← calculate_css inp df_filtered;
  fig ← chart df_filtered;
  m ← metrics df_filtered;
  table ← raw_data_table inp df_filtered;
  mret (mkPage (mkOutputs df_filtered m.1 m.2 (fmt m.1) (fmt m.2)) fig table).

(** ** Sample data *)

(** The timestamp [y-m-d h:mi]. *)
Definition stamp (y m d h mi : Z) : Timestamp :=
  days_from_civil y m d * us_per_day + clock h mi.

(** Five hourly observations around the floor date, one of them with a
    missing market price. *)
Definition sample_frame : DataFrame :=
  mkDF [stamp 2025 3 31 23 0; stamp 2025 4 1 7 0; stamp 2025 4 1 8 0;
        stamp 2025 4 1 20 0; stamp 2025 4 2 21 0]
       (list_to_map
          [("FR", [Some 90%Q; Some 100%Q; Some 100%Q; None; Some 50%Q]);
           ("PEG", [Some 30%Q; Some 30%Q; Some 30%Q; Some 30%Q; Some 30%Q]);
           ("EUA Prices", [Some 80%Q; Some 80%Q; Some 80%Q; Some 80%Q; Some 80%Q])]).

(** Two observations, both at night, four days apart. *)
Definition night_frame : DataFrame :=
  mkDF [stamp 2025 4 1 7 0; stamp 2025 4 5 21 0]
       (list_to_map
          [("FR", [Some 100%Q; Some 50%Q]);
           ("PEG", [Some 30%Q; Some 30%Q]);
           ("EUA Prices", [Some 80%Q; Some 80%Q])]).

(** The widgets at their defaults, on the French market and the PEG index. *)
Definition sample_inputs : Inputs := mkInputs FR PEG 50 (9 # 100) 2 None.

(** The same, with the two days between the observations of [night_frame]
    picked. *)
Definition gap_inputs : Inputs :=
  mkInputs FR PEG 50 (9 # 100) 2
           (Some (days_from_civil 2025 4 2, days_from_civil 2025 4 3)).

(** A store holding one frame, at the identity the name [df] is bound to. *)
Definition store_of (d : DataFrame) : Store := {[ 1%positive := d ]}.

(** Three observations of one day, all inside the peak window. *)
Definition day_frame : DataFrame :=
  mkDF [stamp 2025 4 1 8 0; stamp 2025 4 1 12 0; stamp 2025 4 1 20 0]
       (list_to_map
          [("FR", [Some 100%Q; Some 110%Q; Some 90%Q]);
           ("PEG", [Some 30%Q; Some 30%Q; Some 30%Q]);
           ("EUA Prices", [Some 80%Q; Some 80%Q; Some 80%Q])]).





(** ** Vocabulary of the properties *)

(** The row view of a frame: one timestamp with the cell of every column. *)
Record Row := mkRow {
  r_time : Timestamp;
  r_cells : gmap string value
}.

Fixpoint rows_of (idx : list Timestamp) (cols : gmap string (list value)) : list Row :=
  match idx with
  | [] => []
  | t :: idx' => mkRow t (omap head cols) :: rows_of idx' (tail <$> cols)
  end.

Definition rows (df : DataFrame) : list Row := rows_of (index df) (columns df).

(** A calendar date inside the inclusive interval [[start_date, end_date]]. *)
Definition in_range (start_date end_date : Date) (r : Row) : bool :=
  (start_date <=? date_of (r_time r)) && (date_of (r_time r) <=? end_date).

(** A clock time inside the peak window, 08:00 to 20:00, both included. *)
Definition in_peak (t : Timestamp) : bool :=
  (clock 8 0 <=? time_of t) && (time_of t <=? clock 20 0).

(** A frame as pandas builds it: every column is as long as the index. *)
Definition well_formed (df : DataFrame) : Prop :=
  forall name s, columns df !! name = Some s -> length s = length (index df).

(** No column is longer than the index. *)
Definition cols_bounded (df : DataFrame) : Prop :=
  forall name s, columns df !! name = Some s -> (length s <= length (index df))%nat.

(** The dataset has an observation on or after the floor date. *)
Definition reaches_floor (df : DataFrame) : Prop :=
  exists t, In t (index df) /\ floor_date <= date_of t.

(** The dataset has the three columns the selection needs. *)
Definition has_columns (df : DataFrame) (inp : Inputs) : Prop :=
  is_Some (columns df !! country_column (country inp)) /\
  is_Some (columns df !! gas_column (gas_index inp)) /\
  is_Some (columns df !! "EUA Prices").

(** The cell of column [name] at position [i]. *)
Definition cell (df : DataFrame) (name : string) (i : nat) : option value :=
  columns df !! name ≫= (.!! i).

(** Order of cells: rationals by [<=], NaN only with NaN. *)
Definition cell_le : value -> value -> Prop := option_Forall2 Qle.



(** Lines 45-50 on the three cells of one row. *)
Definition css_cell (inp : Inputs) (m g c : value) : value :=
  cell_sub
    (cell_sub (cell_sub m (cell_div g (efficiency inp)))
              (cell_mul c (Some (emission_factor_th inp / efficiency inp)%Q)))
    (Some (variable_cost inp)).

(** The cells of a column of [f] that line 115 averages. *)
Definition peak_of (f : DataFrame) (css : list value) : list value :=
  select (time_mask (index f) (clock 8 0) (clock 20 0)) css.


(** The inputs of a run with another efficiency or emission factor. *)
Definition with_efficiency_pct (inp : Inputs) (pct : Z) : Inputs :=
  mkInputs (country inp) (gas_index inp) pct
           (emission_factor_th inp) (variable_cost inp) (date_range inp).

Definition with_emission_factor (inp : Inputs) (ef : Q) : Inputs :=
  mkInputs (country inp) (gas_index inp) (efficiency_pct inp)
           ef (variable_cost inp) (date_range inp).

(** Every cell of a series that is an observation is at least zero. *)
Definition cells_nonneg (s : list value) : Prop :=
  Forall (fun v => forall x, v = Some x -> (0 <= x)%Q) s.

(** The dates the run filters on: the picker's value, or its default. *)
Definition selected_range (d : DataFrame) (inp : Inputs) : result (Date * Date) :=
  lo ← min_date d;
  hi ← max_date d;
  date_input lo hi (date_range inp).

(** A store agrees with an earlier one on every object that one held. *)
Definition agree (σ0 σ : Store) : Prop :=
  forall l, l ∈ dom σ0 -> σ !! l = σ0 !! l.

(** The three traces of the figure for a frame and its CSS column. *)
Definition figure_of (f : DataFrame) (css : list value) : list Trace :=
  [mkTrace Scatter "Clean Spark Spread" (index f) css;
   mkTrace Bar "Positive CSS" (index f) (series_clip_lower css 0);
   mkTrace Bar "Negative CSS" (index f) (series_clip_upper css 0)].

(** What a run shows on the page: the two aggregates, their text and the
    figure; or the exception it raised. *)
Definition shown (r : result Page)
  : result (value * value * string * string * list Trace) :=
  match r with
  | Ok pg => Ok (avg_css (page_outputs pg), peak_css (page_outputs pg),
                 avg_text (page_outputs pg), peak_text (page_outputs pg),
                 page_figure pg)
  | Err err => Err err
  end.

(** The same, computed from the dataset and the inputs alone. *)
Definition shown_for (d : DataFrame) (inp : Inputs)
  : result (value * value * string * string * list Trace) :=
  range ← selected_range d inp;
  css ← css_column (filter_dates d range.1 range.2) inp;
  let avg := round2 (series_mean css) in
  let peak := round2 (series_mean (peak_of (filter_dates d range.1 range.2) css)) in
  mret (avg, peak, fmt avg, fmt peak, figure_of (filter_dates d range.1 range.2) css).

(** ** Properties *)

Example floor_date_value : floor_date = 20179.
Proof. reflexivity. Qed.

Example epoch_day : days_from_civil 1970 1 1 = 0.
Proof. reflexivity. Qed.

(** *** Boolean-mask selection *)

Section Select.
Context {A : Type}.
Implicit Types (mask : list bool) (xs : list A).

Lemma select_nil_r mask : select mask (@nil A) = [].
Proof. by destruct mask. Qed.

Lemma select_false_tail mask xs : select (false :: mask) xs = select mask (tail xs).
Proof. destruct xs; simpl; [by rewrite select_nil_r | done]. Qed.

Lemma select_true_head mask xs : head (select (true :: mask) xs) = head xs.
Proof. by destruct xs. Qed.

Lemma select_true_tail mask xs : tail (select (true :: mask) xs) = select mask (tail xs).
Proof. destruct xs; simpl; [by rewrite select_nil_r | done]. Qed.

Lemma select_map_filter (p : A -> bool) xs : select (map p xs) xs = List.filter p xs.
Proof. induction xs as [|x xs IH]; simpl; [done|]. rewrite IH. by destruct (p x). Qed.

Lemma select_all_true mask xs :
  Forall (fun b => b = true) mask -> (length xs <= length mask)%nat -> select mask xs = xs.
Proof.
  intros Hall. revert xs. induction Hall as [|b mask -> _ IH]; intros [|x xs] Hlen; simpl in *;
    try done; try lia.
  f_equal. apply IH. lia.
Qed.

End Select.

Lemma select_length_mono {A B : Type} (mask : list bool) (xs : list A) (ys : list B) :
  (length mask <= length ys)%nat ->
  (length (select mask xs) <= length (select mask ys))%nat.
Proof.
  revert xs ys. induction mask as [|b mask IH]; intros xs ys Hlen; [simpl; lia|].
  destruct ys as [|y ys]; [simpl in Hlen; lia|].
  destruct xs as [|x xs]; [simpl; lia|].
  simpl in *. specialize (IH xs ys). destruct b; simpl; lia.
Qed.

Lemma select_zip {A B : Type} (p : A -> bool) (xs : list A) (ys : list B) :
  select (map p xs) ys = map snd (List.filter (fun q => p (fst q)) (zip xs ys)).
Proof.
  revert ys. induction xs as [|x xs IH]; intros [|y ys]; simpl; try done.
  rewrite IH. by destruct (p x).
Qed.

Lemma date_mask_map df s e :
  date_mask df s e = map (fun t => (s <=? date_of t) && (date_of t <=? e)) (index df).
Proof.
  unfold date_mask, index_dates. induction (index df) as [|t l IH]; simpl; [done|].
  by rewrite IH.
Qed.

Lemma rows_of_select mask idx cols :
  rows_of (select mask idx) (select mask <$> cols) = select mask (rows_of idx cols).
Proof.
  revert idx cols. induction mask as [|b mask IH]; intros idx cols; [done|].
  destruct idx as [|t idx]; [done|].
  destruct b; simpl.
  - f_equal.
    + f_equal. apply map_eq. intros name. rewrite !lookup_omap, lookup_fmap.
      destruct (cols !! name) as [col|]; simpl; [|done]. apply select_true_head.
    + rewrite <- IH. f_equal. apply map_eq. intros name. rewrite !lookup_fmap.
      destruct (cols !! name) as [col|]; simpl; [|done]. f_equal. apply select_true_tail.
  - rewrite <- IH. f_equal. apply map_eq. intros name. rewrite !lookup_fmap.
    destruct (cols !! name) as [col|]; simpl; [|done]. f_equal. destruct col; simpl; [by rewrite select_nil_r|done].
Qed.

Lemma rows_of_times idx cols : map r_time (rows_of idx cols) = idx.
Proof. revert cols. induction idx as [|t idx IH]; intros cols; simpl; [done|]. by rewrite IH. Qed.

Lemma select_rows (p : Timestamp -> bool) idx cols :
  select (map p idx) (rows_of idx cols) = List.filter (fun r => p (r_time r)) (rows_of idx cols).
Proof.
  rewrite <- (rows_of_times idx cols) at 1. rewrite map_map.
  apply (select_map_filter (fun r => p (r_time r))).
Qed.

Lemma rows_filter_dates df s e :
  rows (filter_dates df s e) = List.filter (in_range s e) (rows df).
Proof.
  unfold rows, filter_dates, getitem_mask. simpl.
  rewrite rows_of_select, date_mask_map. apply select_rows.
Qed.

Lemma foldl_min_spec l x :
  In (foldl Z.min x l) (x :: l) /\ Forall (fun d => foldl Z.min x l <= d) (x :: l).
Proof.
  revert x. induction l as [|y l IH]; intros x; simpl.
  - split; [by left|]. constructor; [lia|constructor].
  - destruct (IH (Z.min x y)) as [Hin Hall]. simpl in Hin.
    inversion Hall as [|? ? Hhd Htl]; subst.
    split.
    + destruct Hin as [Hin|Hin]; [|by right; right].
      rewrite <- Hin. destruct (Z.min_spec x y) as [[_ ->]|[_ ->]]; [by left|by right; left].
    + constructor; [lia|]. constructor; [lia|done].
Qed.

Lemma foldl_max_spec l x :
  In (foldl Z.max x l) (x :: l) /\ Forall (fun d => d <= foldl Z.max x l) (x :: l).
Proof.
  revert x. induction l as [|y l IH]; intros x; simpl.
  - split; [by left|]. constructor; [lia|constructor].
  - destruct (IH (Z.max x y)) as [Hin Hall]. simpl in Hin.
    inversion Hall as [|? ? Hhd Htl]; subst.
    split.
    + destruct Hin as [Hin|Hin]; [|by right; right].
      rewrite <- Hin. destruct (Z.max_spec x y) as [[_ ->]|[_ ->]]; [by right; left|by left].
    + constructor; [lia|]. constructor; [lia|done].
Qed.

Lemma py_min_spec l : l <> [] ->
  exists m, py_min l = Ok m /\ In m l /\ Forall (fun d => m <= d) l.
Proof.
  destruct l as [|x l]; [done|]. intros _. exists (foldl Z.min x l).
  split; [done|]. apply foldl_min_spec.
Qed.

Lemma py_max_spec l : l <> [] ->
  exists m, py_max l = Ok m /\ In m l /\ Forall (fun d => d <= m) l.
Proof.
  destruct l as [|x l]; [done|]. intros _. exists (foldl Z.max x l).
  split; [done|]. apply foldl_max_spec.
Qed.

Lemma date_mask_length df s e : length (date_mask df s e) = length (index df).
Proof. rewrite date_mask_map. apply length_map. Qed.

Lemma filter_dates_bounded df s e : cols_bounded (filter_dates df s e).
Proof.
  intros name col. unfold filter_dates, getitem_mask. simpl.
  rewrite lookup_fmap. destruct (columns df !! name) as [c|]; simpl; [|done].
  intros [= <-]. apply select_length_mono. by rewrite date_mask_length.
Qed.

Lemma filter_dates_in_range df s e :
  Forall (fun t => s <= date_of t <= e) (index (filter_dates df s e)).
Proof.
  unfold filter_dates, getitem_mask. simpl. rewrite date_mask_map, select_map_filter.
  apply List.Forall_forall. intros t Ht. apply List.filter_In in Ht as [_ Ht]. lia.
Qed.

Lemma filter_dates_fixed r lo hi :
  cols_bounded r ->
  Forall (fun t => lo <= date_of t <= hi) (index r) ->
  filter_dates r lo hi = r.
Proof.
  intros Hb Hall. destruct r as [idx cols]. unfold filter_dates, getitem_mask. simpl in *.
  assert (Htrue : Forall (fun b => b = true) (date_mask (mkDF idx cols) lo hi)).
  { rewrite date_mask_map. simpl. clear Hb. induction Hall as [|t l Ht _ IH]; simpl; [constructor|constructor; [lia|done]]. }
  f_equal.
  - apply select_all_true; [done|]. by rewrite date_mask_length.
  - apply map_eq. intros name. rewrite lookup_fmap.
    destruct (cols !! name) as [col|] eqn:Hcol; simpl; [|done].
    f_equal. apply select_all_true; [done|]. rewrite date_mask_length. simpl. eauto.
Qed.

Lemma index_dates_nil df : index_dates df = [] <-> index df = [].
Proof. unfold index_dates. destruct (index df); simpl; split; congruence. Qed.

Lemma rows_in_range df s e r :
  In r (rows (filter_dates df s e)) <-> In r (rows df) /\ s <= date_of (r_time r) <= e.
Proof.
  rewrite rows_filter_dates, List.filter_In. unfold in_range. split; intros [? ?]; split; auto; lia.
Qed.

(** C7.  On a non-empty dataset, the date filter keeps exactly the rows whose
    calendar date lies in the inclusive interval [[s, e]], in their order;
    the lower bound offered by the picker is the later of the dataset's
    earliest date and 2025-04-01, the upper bound is the dataset's latest
    date, and these two are the range the run uses when the picker is left at
    its default. *)
Theorem date_filter_keeps_range (df : DataFrame) (s e : Date) :
  index df <> [] ->
  rows (filter_dates df s e) = List.filter (in_range s e) (rows df) /\
  (forall r, In r (rows (filter_dates df s e)) <->
             In r (rows df) /\ s <= date_of (r_time r) <= e) /\
  exists dmin dmax,
    In dmin (index_dates df) /\ In dmax (index_dates df) /\
    Forall (fun d => dmin <= d <= dmax) (index_dates df) /\
    min_date df = Ok (Z.max dmin (days_from_civil 2025 4 1)) /\
    max_date df = Ok dmax /\
    (Z.max dmin (days_from_civil 2025 4 1) <= dmax ->
     forall inp, date_range inp = None ->
       selected_range df inp = Ok (Z.max dmin (days_from_civil 2025 4 1), dmax)).
Proof.
  intros Hne. split; [apply rows_filter_dates|]. split; [apply rows_in_range|].
  assert (Hd : index_dates df <> []) by (by rewrite index_dates_nil).
  destruct (py_min_spec _ Hd) as (dmin & Hmin & Hin & Hle).
  destruct (py_max_spec _ Hd) as (dmax & Hmax & Hax & Hge).
  exists dmin, dmax. repeat split; try done.
  - apply List.Forall_forall. intros d Hdin.
    rewrite List.Forall_forall in Hle, Hge. split; auto.
  - unfold min_date. by rewrite Hmin.
  - intros Hord inp Hnone. unfold selected_range, min_date, max_date, date_input.
    rewrite Hmin, Hmax, Hnone. unfold mbind, result_bind.
    destruct (Z.ltb_spec dmax (Z.max dmin floor_date)) as [Hlt|_];
      [change floor_date with (days_from_civil 2025 4 1) in Hlt; lia|reflexivity].
Qed.

(** C8.  Filtering a filtered frame again changes nothing: neither with the
    same interval, nor with the earliest and latest date the filtered frame
    itself holds, nor, when the interval starts on or after 2025-04-01, with
    the bounds the script would compute for the filtered frame. *)
Theorem date_filter_idempotent (df : DataFrame) (d1 d2 : Date) :
  let r := filter_dates df d1 d2 in
  filter_dates r d1 d2 = r /\
  match py_min (index_dates r), py_max (index_dates r) with
  | Ok lo, Ok hi => filter_dates r lo hi = r
  | _, _ => index r = [] /\ forall lo hi, filter_dates r lo hi = r
  end /\
  (floor_date <= d1 ->
   match min_date r, max_date r with
   | Ok lo, Ok hi => filter_dates r lo hi = r
   | _, _ => index r = []
   end).
Proof.
  intros r. pose proof (filter_dates_bounded df d1 d2 : cols_bounded r) as Hb.
  pose proof (filter_dates_in_range df d1 d2 : Forall _ (index r)) as Hin.
  split; [by apply filter_dates_fixed|].
  destruct (index r) as [|t idx] eqn:Hidx.
  - assert (Hd : index_dates r = []) by (by rewrite index_dates_nil).
    unfold min_date, max_date. rewrite Hd. simpl. split; [|done]. split; [done|].
    intros lo hi. apply filter_dates_fixed; [done|]. rewrite Hidx. constructor.
  - assert (Hd : index_dates r <> []) by (rewrite index_dates_nil; congruence).
    unfold min_date, max_date.
    destruct (py_min_spec _ Hd) as (lo & -> & Hlo & Hle).
    destruct (py_max_spec _ Hd) as (hi & -> & _ & Hge).
    unfold index_dates in Hle, Hge, Hlo. rewrite Hidx in Hle, Hge, Hlo.
    rewrite List.Forall_map in Hle, Hge.
    rewrite List.Forall_forall in Hle, Hge, Hin.
    apply List.in_map_iff in Hlo as (t0 & <- & Ht0).
    split; [|intros Hfloor]; (apply filter_dates_fixed; [done|]); rewrite Hidx;
      apply List.Forall_forall; intros x Hx; split; auto.
    specialize (Hin _ Ht0). specialize (Hle _ Hx). lia.
Qed.

(** *** Running the script *)

Lemma getitem_between_time f name s a b :
  getitem f name = Ok s ->
  getitem (between_time f a b) name = Ok (select (time_mask (index f) a b) s).
Proof.
  unfold getitem, between_time, getitem_mask. simpl. rewrite lookup_fmap.
  destruct (columns f !! name); simpl; [|done]. by intros [= ->].
Qed.

Lemma getitem_setitem f name s : getitem (setitem f name s) name = Ok s.
Proof. unfold getitem, setitem. simpl. by rewrite lookup_insert_eq. Qed.

Lemma frame_eta f : mkDF (index f) (columns f) = f.
Proof. by destruct f. Qed.

Section Steps.
Context {A B : Type}.

Lemma bind_run (m : Script A) (f : A -> Script B) (σ σ' : Store) a :
  m σ = (Ok a, σ') -> (m ≫= f) σ = f a σ'.
Proof. intros H. unfold mbind, script_bind. by rewrite H. Qed.

Lemma bind_raise (m : Script A) (f : A -> Script B) (σ σ' : Store) e :
  m σ = (Err e, σ') -> (m ≫= f) σ = (Err e, σ').
Proof. intros H. unfold mbind, script_bind. by rewrite H. Qed.

Lemma lift_run (r : result A) (σ : Store) a : r = Ok a -> lift r σ = (Ok a, σ).
Proof. by intros ->. Qed.
End Steps.

Lemma load_run (σ : Store) l d : σ !! l = Some d -> load l σ = (Ok d, σ).
Proof. intros H. unfold load. by rewrite H. Qed.

Lemma alloc_run (σ : Store) d : alloc d σ = (Ok (fresh (dom σ)), <[fresh (dom σ) := d]> σ).
Proof. done. Qed.

Lemma store_run (σ : Store) l d d' : σ !! l = Some d' -> store l d σ = (Ok tt, <[l := d]> σ).
Proof. intros H. unfold store. by rewrite H. Qed.

Lemma copy_run (σ : Store) l d :
  σ !! l = Some d -> copy l σ = (Ok (fresh (dom σ)), <[fresh (dom σ) := d]> σ).
Proof. intros H. unfold copy. by rewrite (bind_run _ _ _ _ _ (load_run _ _ _ H)). Qed.

Ltac step H := rewrite (bind_run _ _ _ _ _ H).

Lemma agree_refl (σ : Store) : agree σ σ.
Proof. by intros l _. Qed.

Lemma agree_insert (σ0 σ : Store) l d : agree σ0 σ -> l ∉ dom σ0 -> agree σ0 (<[l := d]> σ).
Proof.
  intros Hag Hl k Hk. rewrite lookup_insert_ne; [by apply Hag|]. intros ->. done.
Qed.

Lemma date_selection_run inp df (σ : Store) d :
  σ !! df = Some d -> date_selection inp df σ = (selected_range d inp, σ).
Proof.
  intros Hdf. unfold date_selection, selected_range.
  step (load_run _ _ _ Hdf).
  destruct (min_date d) as [lo|err]; [|by rewrite (bind_raise _ _ σ σ err)].
  step (lift_run (Ok lo) σ lo eq_refl).
  destruct (max_date d) as [hi|err]; [|by rewrite (bind_raise _ _ σ σ err)].
  by step (lift_run (Ok hi) σ hi eq_refl).
Qed.

Lemma date_selection_dangling inp df (σ : Store) :
  σ !! df = None -> date_selection inp df σ = (Err Dangling, σ).
Proof.
  intros Hdf. unfold date_selection. apply bind_raise. unfold load. by rewrite Hdf.
Qed.

Lemma filter_by_date_run df (σ : Store) d s e :
  σ !! df = Some d ->
  let l1 := fresh (dom σ) in
  let l2 := fresh (dom (<[l1 := filter_dates d s e]> σ)) in
  filter_by_date df s e σ =
    (Ok l2, <[l2 := filter_dates d s e]> (<[l2 := filter_dates d s e]>
              (<[l1 := filter_dates d s e]> σ))).
Proof.
  intros Hdf l1 l2. set (f := filter_dates d s e) in *. unfold filter_by_date.
  step (load_run _ _ _ Hdf).
  step (alloc_run σ (getitem_mask d (date_mask d s e))).
  fold (filter_dates d s e) f l1.
  assert (H1 : <[l1 := f]> σ !! l1 = Some f) by apply lookup_insert_eq.
  step (copy_run _ _ _ H1). fold l2.
  assert (H2 : <[l2 := f]> (<[l1 := f]> σ) !! l2 = Some f) by apply lookup_insert_eq.
  step (load_run _ _ _ H2).
  step (store_run _ _ (mkDF (index f) (columns f)) _ H2).
  by rewrite frame_eta.
Qed.

Lemma calculate_css_run inp l (σ : Store) f :
  σ !! l = Some f ->
  calculate_css inp l σ =
    match css_column f inp with
    | Ok css => (Ok tt, <[l := setitem f "CSS" css]> σ)
    | Err err => (Err err, σ)
    end.
Proof.
  intros Hl. unfold calculate_css.
  step (load_run _ _ _ Hl).
  destruct (css_column f inp) as [css|err]; [|by rewrite (bind_raise _ _ σ σ err)].
  step (lift_run (Ok css) σ css eq_refl). by apply store_run with f.
Qed.

Lemma metrics_run l (σ : Store) f css :
  σ !! l = Some f ->
  getitem f "CSS" = Ok css ->
  let pk := between_time f (clock 8 0) (clock 20 0) in
  let l3 := fresh (dom σ) in
  let l4 := fresh (dom (<[l3 := pk]> σ)) in
  metrics l σ =
    (Ok (round2 (series_mean css), round2 (series_mean (peak_of f css))),
     <[l4 := pk]> (<[l3 := pk]> σ)).
Proof.
  intros Hl Hcss pk l3 l4. unfold metrics.
  assert (Hpk : getitem pk "CSS" = Ok (peak_of f css)) by (by apply getitem_between_time).
  step (load_run _ _ _ Hl).
  step (alloc_run σ pk). fold l3.
  assert (H3 : <[l3 := pk]> σ !! l3 = Some pk) by apply lookup_insert_eq.
  step (load_run _ _ _ H3).
  step (lift_run _ (<[l3 := pk]> σ) _ Hpk).
  step (lift_run _ (<[l3 := pk]> σ) _ Hcss).
  step (alloc_run (<[l3 := pk]> σ) pk). fold l4.
  assert (H4 : <[l4 := pk]> (<[l3 := pk]> σ) !! l4 = Some pk) by apply lookup_insert_eq.
  step (load_run _ _ _ H4).
  by step (lift_run _ (<[l4 := pk]> (<[l3 := pk]> σ)) _ Hpk).
Qed.

(** The store a run reaches when the CSS column cannot be computed, and the
    store and outputs it reaches when it can. *)
Lemma script_unfold inp df (σ : Store) d s e :
  σ !! df = Some d ->
  selected_range d inp = Ok (s, e) ->
  let f := filter_dates d s e in
  let l1 := fresh (dom σ) in
  let l2 := fresh (dom (<[l1 := f]> σ)) in
  let σ2 := <[l2 := f]> (<[l2 := f]> (<[l1 := f]> σ)) in
  script inp df σ =
    match css_column f inp with
    | Err err => (Err err, σ2)
    | Ok css =>
        let fc := setitem f "CSS" css in
        let σ3 := <[l2 := fc]> σ2 in
        let pk := between_time fc (clock 8 0) (clock 20 0) in
        let l3 := fresh (dom σ3) in
        let l4 := fresh (dom (<[l3 := pk]> σ3)) in
        let avg := round2 (series_mean css) in
        let peak := round2 (series_mean (peak_of f css)) in
        (Ok (mkOutputs l2 avg peak (fmt avg) (fmt peak)), <[l4 := pk]> (<[l3 := pk]> σ3))
    end.
Proof.
  intros Hdf Hsel f l1 l2 σ2. unfold script.
  assert (Hsel' : date_selection inp df σ = (Ok (s, e), σ))
    by (by rewrite (date_selection_run _ _ _ _ Hdf), Hsel).
  step Hsel'.
  step (filter_by_date_run df σ d s e Hdf). fold f l1 l2 σ2.
  assert (H2 : σ2 !! l2 = Some f) by apply lookup_insert_eq.
  pose proof (calculate_css_run inp l2 σ2 f H2) as Hcalc.
  destruct (css_column f inp) as [css|err]; [|by rewrite (bind_raise _ _ _ _ _ Hcalc)].
  step Hcalc.
  assert (H3 : <[l2 := setitem f "CSS" css]> σ2 !! l2 = Some (setitem f "CSS" css))
    by apply lookup_insert_eq.
  by step (metrics_run l2 _ _ css H3 (getitem_setitem f "CSS" css)).
Qed.

Lemma script_run inp df (σ : Store) d s e css :
  σ !! df = Some d ->
  selected_range d inp = Ok (s, e) ->
  css_column (filter_dates d s e) inp = Ok css ->
  exists o σ',
    script inp df σ = (Ok o, σ') /\
    (df_filtered o ∉ dom σ) /\
    σ' !! df_filtered o = Some (setitem (filter_dates d s e) "CSS" css) /\
    avg_css o = round2 (series_mean css) /\
    peak_css o = round2 (series_mean (peak_of (filter_dates d s e) css)) /\
    avg_text o = fmt (avg_css o) /\
    peak_text o = fmt (peak_css o) /\
    agree σ σ'.
Proof.
  intros Hdf Hsel Hcss.
  rewrite (script_unfold _ _ _ _ _ _ Hdf Hsel), Hcss.
  set (f := filter_dates d s e).
  set (l1 := fresh (dom σ)).
  set (σ1 := <[l1 := f]> σ).
  set (l2 := fresh (dom σ1)).
  set (fc := setitem f "CSS" css).
  set (σ3 := <[l2 := fc]> (<[l2 := f]> (<[l2 := f]> σ1))).
  set (pk := between_time fc (clock 8 0) (clock 20 0)).
  set (l3 := fresh (dom σ3)).
  set (σ4 := <[l3 := pk]> σ3).
  set (l4 := fresh (dom σ4)).
  assert (Hl1 : l1 ∉ dom σ) by apply is_fresh.
  assert (Hl2 : l2 ∉ dom σ1) by apply is_fresh.
  assert (Hl2' : l2 ∉ dom σ).
  { intros Hin. apply Hl2. unfold σ1. rewrite dom_insert_L. set_solver. }
  assert (Hl3 : l3 ∉ dom σ3) by apply is_fresh.
  assert (Hl3' : l3 ∉ dom σ).
  { intros Hin. apply Hl3. unfold σ3, σ1. rewrite !dom_insert_L. set_solver. }
  assert (Hl4 : l4 ∉ dom σ4) by apply is_fresh.
  assert (Hl4' : l4 ∉ dom σ).
  { intros Hin. apply Hl4. unfold σ4, σ3, σ1. rewrite !dom_insert_L. set_solver. }
  assert (Hl32 : l3 <> l2).
  { intros Heq. apply Hl3. rewrite Heq. unfold σ3. rewrite dom_insert_L. set_solver. }
  assert (Hl42 : l4 <> l2).
  { intros Heq. apply Hl4. rewrite Heq. unfold σ4, σ3. rewrite !dom_insert_L. set_solver. }
  eexists _, _. split; [reflexivity|]. simpl. repeat split; try done.
  - rewrite !lookup_insert_ne by done. apply lookup_insert_eq.
  - unfold σ4, σ3, σ1. repeat apply agree_insert; try done; apply agree_refl.
Qed.

(** *** The CSS column *)

Lemma lookup_map {A B : Type} (f : A -> B) (l : list A) (i : nat) :
  map f l !! i = f <$> (l !! i).
Proof. revert i. induction l as [|x l IH]; intros [|i]; simpl; auto. Qed.

Lemma efficiency_nonzero inp : efficiency_pct inp <> 0 -> Qeq_bool (efficiency inp) 0 = false.
Proof.
  intros Hne. apply not_true_is_false. intros Heq. apply Qeq_bool_eq in Heq.
  unfold efficiency, efficiency_of_pct, Qeq, Qdiv in Heq. simpl in Heq. lia.
Qed.

Lemma css_column_ok f inp market gas carbon :
  getitem f (country_column (country inp)) = Ok market ->
  getitem f (gas_column (gas_index inp)) = Ok gas ->
  getitem f "EUA Prices" = Ok carbon ->
  efficiency_pct inp <> 0 ->
  css_column f inp =
    Ok (series_sub_scalar
          (series_sub (series_sub market (series_div_scalar gas (efficiency inp)))
                      (series_mul_scalar carbon (emission_factor_th inp / efficiency inp)%Q))
          (variable_cost inp)).
Proof.
  intros Hm Hg Hc Hne. unfold css_column, float_div.
  rewrite Hm, Hg. simpl. rewrite Hc. simpl. rewrite (efficiency_nonzero _ Hne). done.
Qed.

Lemma css_column_inv f inp css :
  css_column f inp = Ok css ->
  exists market gas carbon,
    getitem f (country_column (country inp)) = Ok market /\
    getitem f (gas_column (gas_index inp)) = Ok gas /\
    getitem f "EUA Prices" = Ok carbon /\
    Qeq_bool (efficiency inp) 0 = false /\
    css = series_sub_scalar
          (series_sub (series_sub market (series_div_scalar gas (efficiency inp)))
                      (series_mul_scalar carbon (emission_factor_th inp / efficiency inp)%Q))
          (variable_cost inp).
Proof.
  unfold css_column, float_div.
  destruct (getitem f (country_column _)) as [market|]; [|done].
  destruct (getitem f (gas_column _)) as [gas|]; [|done]. simpl.
  destruct (getitem f "EUA Prices") as [carbon|]; [|done]. simpl.
  destruct (Qeq_bool (efficiency inp) 0); [done|]. simpl.
  intros [= <-]. by exists market, gas, carbon.
Qed.

Lemma getitem_cell f name s i : getitem f name = Ok s -> cell f name i = s !! i.
Proof.
  unfold getitem, cell. destruct (columns f !! name); [|done]. by intros [= ->].
Qed.

Lemma css_column_lookup f inp css i m g c :
  css_column f inp = Ok css ->
  cell f (country_column (country inp)) i = Some m ->
  cell f (gas_column (gas_index inp)) i = Some g ->
  cell f "EUA Prices" i = Some c ->
  css !! i = Some (css_cell inp m g c).
Proof.
  intros Hcss Hm Hg Hc.
  destruct (css_column_inv _ _ _ Hcss) as (market & gas & carbon & Em & Eg & Ec & _ & ->).
  rewrite (getitem_cell _ _ _ i Em) in Hm.
  rewrite (getitem_cell _ _ _ i Eg) in Hg.
  rewrite (getitem_cell _ _ _ i Ec) in Hc.
  unfold series_sub_scalar, series_sub, series_mul_scalar, series_div_scalar.
  rewrite lookup_map, !lookup_zip_with, !lookup_map, Hm, Hg, Hc. done.
Qed.


Lemma css_cell_missing inp m g c :
  m = None \/ g = None \/ c = None -> css_cell inp m g c = None.
Proof.
  unfold css_cell, cell_sub, cell_mul, cell_div.
  intros [-> | [-> | ->]]; [done| |].
  - by destruct m.
  - destruct m, g; try done; by destruct (Qeq_bool _ _).
Qed.

Lemma cell_setitem_ne f name name' s i :
  name <> name' -> cell (setitem f name s) name' i = cell f name' i.
Proof. intros Hne. unfold cell, setitem. simpl. by rewrite lookup_insert_ne. Qed.

Lemma cell_setitem_eq f name s i : cell (setitem f name s) name i = s !! i.
Proof. unfold cell, setitem. simpl. by rewrite lookup_insert_eq. Qed.

Lemma country_column_not_css c : "CSS" <> country_column c.
Proof. by destruct c. Qed.

Lemma gas_column_not_css g : "CSS" <> gas_column g.
Proof. by destruct g. Qed.

Lemma getitem_filter_dates d s e name col :
  getitem d name = Ok col ->
  getitem (filter_dates d s e) name = Ok (select (date_mask d s e) col).
Proof.
  unfold getitem, filter_dates, getitem_mask. simpl. rewrite lookup_fmap.
  destruct (columns d !! name); [|done]. by intros [= ->].
Qed.

Lemma getitem_is_Some d name :
  is_Some (columns d !! name) -> exists col, getitem d name = Ok col.
Proof. intros [col H]. exists col. unfold getitem. by rewrite H. Qed.

(** A run on a loaded dataset that reaches the floor date and has the
    selected columns, with a non-zero efficiency, raises nothing. *)
Lemma script_total inp df (σ : Store) d :
  σ !! df = Some d ->
  reaches_floor d ->
  has_columns d inp ->
  efficiency_pct inp <> 0 ->
  exists s e css,
    selected_range d inp = Ok (s, e) /\
    css_column (filter_dates d s e) inp = Ok css.
Proof.
  intros Hdf (t & Ht & Hfloor) (Hm & Hg & Hc) Heff.
  assert (Hin : In (date_of t) (index_dates d)) by (by apply List.in_map).
  assert (Hd : index_dates d <> []) by (by destruct (index_dates d)).
  destruct (py_min_spec _ Hd) as (lo & Hlo & Hlo_in & Hlo_le).
  destruct (py_max_spec _ Hd) as (hi & Hhi & _ & Hhi_ge).
  rewrite List.Forall_forall in Hlo_le, Hhi_ge.
  pose proof (Hhi_ge _ Hlo_in). pose proof (Hhi_ge _ Hin).
  destruct (default (Z.max lo floor_date, hi) (date_range inp)) as [s e] eqn:Hsel.
  apply getitem_is_Some in Hm as [market Hm], Hg as [gas Hg], Hc as [carbon Hc].
  exists s, e. eexists. split.
  - unfold selected_range, min_date, max_date, date_input. rewrite Hlo, Hhi.
    unfold mbind, result_bind.
    destruct (Z.ltb_spec hi (Z.max lo floor_date)); [lia|]. f_equal. exact Hsel.
  - apply css_column_ok; eauto using getitem_filter_dates.
Qed.

Lemma script_succeeds inp df (σ : Store) d :
  σ !! df = Some d ->
  reaches_floor d ->
  has_columns d inp ->
  efficiency_pct inp <> 0 ->
  exists o σ' s e css,
    script inp df σ = (Ok o, σ') /\
    selected_range d inp = Ok (s, e) /\
    css_column (filter_dates d s e) inp = Ok css /\
    (df_filtered o ∉ dom σ) /\
    σ' !! df_filtered o = Some (setitem (filter_dates d s e) "CSS" css) /\
    avg_css o = round2 (series_mean css) /\
    peak_css o = round2 (series_mean (peak_of (filter_dates d s e) css)) /\
    avg_text o = fmt (avg_css o) /\
    peak_text o = fmt (peak_css o) /\
    agree σ σ'.
Proof.
  intros Hdf Hne Hcols Heff.
  destruct (script_total _ _ _ _ Hdf Hne Hcols Heff) as (s & e & css & Hsel & Hcss).
  destruct (script_run _ _ _ _ _ _ _ Hdf Hsel Hcss) as (o & σ' & H).
  exists o, σ', s, e, css. tauto.
Qed.


Lemma select_length_eq {A B : Type} (mask : list bool) (xs : list A) (ys : list B) :
  length xs = length ys -> length (select mask xs) = length (select mask ys).
Proof.
  revert xs ys. induction mask as [|b mask IH]; intros [|x xs] [|y ys] Hlen; simpl in *; try done.
  specialize (IH xs ys). destruct b; simpl; lia.
Qed.

Lemma filter_dates_well_formed d s e : well_formed d -> well_formed (filter_dates d s e).
Proof.
  intros Hwf name col. unfold filter_dates, getitem_mask. simpl.
  rewrite lookup_fmap. destruct (columns d !! name) as [c|] eqn:Hc; simpl; [|done].
  intros [= <-]. apply select_length_eq. eauto.
Qed.

Lemma well_formed_cell f name col i t :
  well_formed f -> getitem f name = Ok col -> index f !! i = Some t ->
  exists v, cell f name i = Some v.
Proof.
  intros Hwf Hcol Hi. rewrite (getitem_cell _ _ _ i Hcol).
  apply lookup_lt_is_Some. unfold getitem in Hcol.
  destruct (columns f !! name) as [c|] eqn:Hc; [|done]. injection Hcol as ->.
  rewrite (Hwf _ _ Hc). by apply lookup_lt_is_Some.
Qed.

Lemma b64_nan_propagates m g c eff ef vc :
  m = S754_nan \/ g = S754_nan \/ c = S754_nan -> B64.css m g c eff ef vc = S754_nan.
Proof.
  unfold B64.css, css_formula, B64.sub, B64.mul, B64.div.
  intros [-> | [-> | ->]].
  - done.
  - assert (Hd : SFdiv B64.prec B64.emax S754_nan eff = S754_nan) by done.
    rewrite Hd.
    assert (Hs : SFsub B64.prec B64.emax m S754_nan = S754_nan) by (by destruct m as [| [] | |]).
    rewrite Hs. done.
  - assert (Hm : forall y, SFmul B64.prec B64.emax S754_nan y = S754_nan) by done.
    rewrite Hm.
    assert (Hs : forall x, SFsub B64.prec B64.emax x S754_nan = S754_nan)
      by (by intros [| [] | |]).
    rewrite Hs. done.
Qed.

(** C4.  In the filtered frame of a run on a well-formed dataset, every
    timestamp has a cell in each of the three price columns, and when one of
    them is missing the CSS cell of that timestamp is missing too: it is
    NaN, not zero nor any other number.  The binary64 formula likewise yields
    NaN as soon as one of the three prices is NaN. *)
Theorem missing_input_propagates :
  (forall inp df (σ : Store) d,
     σ !! df = Some d ->
     reaches_floor d ->
     well_formed d ->
     has_columns d inp ->
     efficiency_pct inp <> 0 ->
     exists o σ' f,
       script inp df σ = (Ok o, σ') /\
       σ' !! df_filtered o = Some f /\
       forall i t, index f !! i = Some t ->
         exists m g c,
           cell f (country_column (country inp)) i = Some m /\
           cell f (gas_column (gas_index inp)) i = Some g /\
           cell f "EUA Prices" i = Some c /\
           (m = None \/ g = None \/ c = None -> cell f "CSS" i = Some None)) /\
  (forall m g c eff ef vc,
     m = S754_nan \/ g = S754_nan \/ c = S754_nan ->
     B64.css m g c eff ef vc = S754_nan).
Proof.
  split; [|apply b64_nan_propagates].
  intros inp df σ d Hdf Hne Hwf Hcols Heff.
  destruct (script_succeeds _ _ _ _ Hdf Hne Hcols Heff)
    as (o & σ' & s & e & css & Hrun & _ & Hcss & _ & Hf & _).
  exists o, σ', (setitem (filter_dates d s e) "CSS" css).
  split; [done|]. split; [done|].
  intros i t Hi. simpl in Hi.
  pose proof (filter_dates_well_formed _ s e Hwf) as Hwf'.
  destruct (css_column_inv _ _ _ Hcss) as (market & gas & carbon & Em & Eg & Ec & _ & _).
  destruct (well_formed_cell _ _ _ _ _ Hwf' Em Hi) as [m Hm].
  destruct (well_formed_cell _ _ _ _ _ Hwf' Eg Hi) as [g Hg].
  destruct (well_formed_cell _ _ _ _ _ Hwf' Ec Hi) as [c Hc].
  exists m, g, c.
  rewrite !cell_setitem_ne by
    first [apply country_column_not_css | apply gas_column_not_css | done].
  repeat split; try done.
  intros Hmiss.
  rewrite cell_setitem_eq, (css_column_lookup _ _ _ _ _ _ _ Hcss Hm Hg Hc).
  f_equal. by apply css_cell_missing.
Qed.

Lemma css_column_length_eq f inp css :
  well_formed f -> css_column f inp = Ok css -> length css = length (index f).
Proof.
  intros Hwf Hcss.
  destruct (css_column_inv _ _ _ Hcss) as (market & gas & carbon & Em & Eg & Ec & _ & ->).
  assert (Hlen : forall name col, getitem f name = Ok col -> length col = length (index f)).
  { intros name col. unfold getitem. destruct (columns f !! name) eqn:Hc; [|done].
    intros [= <-]. eauto. }
  unfold series_sub_scalar, series_sub, series_mul_scalar, series_div_scalar.
  rewrite !length_map, !length_zip_with, !length_map.
  rewrite (Hlen _ _ Em), (Hlen _ _ Eg), (Hlen _ _ Ec). lia.
Qed.



Lemma series_sub_le (a b k : list value) :
  Forall2 cell_le a b -> Forall2 cell_le (series_sub a k) (series_sub b k).
Proof.
  intros H. revert k. unfold series_sub.
  induction H as [|x y a b Hxy _ IH]; intros [|z k]; simpl; constructor; [|apply IH].
  destruct Hxy as [x y Hxy|]; destruct z as [z|]; unfold cell_sub; constructor. lra.
Qed.

Lemma series_sub_scalar_le (a b : list value) (k : Q) :
  Forall2 cell_le a b -> Forall2 cell_le (series_sub_scalar a k) (series_sub_scalar b k).
Proof.
  intros H. unfold series_sub_scalar.
  induction H as [|x y a b Hxy _ IH]; simpl; constructor; [|apply IH].
  destruct Hxy as [x y Hxy|]; unfold cell_sub; constructor. lra.
Qed.

Lemma getitem_setitem_ne f name name' s :
  name <> name' -> getitem (setitem f name s) name' = getitem f name'.
Proof. intros Hne. unfold getitem, setitem. simpl. by rewrite lookup_insert_ne. Qed.

Lemma country_not_gas c g : country_column c <> gas_column g.
Proof. by destruct c, g. Qed.

Lemma country_not_carbon c : country_column c <> "EUA Prices".
Proof. by destruct c. Qed.

(** C6.  Two frames that differ only in the market-price column, the second
    holding prices at least as high at every timestamp: the CSS column of the
    second is at least the CSS column of the first at every timestamp. *)
Theorem css_monotone_in_market (f : DataFrame) (inp : Inputs) (m1 m2 a1 : list value) :
  Forall2 cell_le m1 m2 ->
  css_column (setitem f (country_column (country inp)) m1) inp = Ok a1 ->
  exists a2,
    css_column (setitem f (country_column (country inp)) m2) inp = Ok a2 /\
    Forall2 cell_le a1 a2.
Proof.
  intros Hle Ha.
  destruct (css_column_inv _ _ _ Ha) as (market & gas & carbon & Em & Eg & Ec & Heff & ->).
  rewrite getitem_setitem in Em. injection Em as <-.
  rewrite getitem_setitem_ne in Eg by apply country_not_gas.
  rewrite getitem_setitem_ne in Ec by apply country_not_carbon.
  eexists. split.
  - unfold css_column, float_div.
    rewrite getitem_setitem.
    rewrite !getitem_setitem_ne by first [apply country_not_gas | apply country_not_carbon].
    rewrite Eg. simpl. rewrite Ec. simpl. rewrite Heff. reflexivity.
  - by apply series_sub_scalar_le, series_sub_le, series_sub_le.
Qed.

(** *** The frame of a run *)

Lemma script_dangling inp df (σ : Store) :
  σ !! df = None -> script inp df σ = (Err Dangling, σ).
Proof.
  intros Hdf. unfold script. apply bind_raise. by apply date_selection_dangling.
Qed.

Lemma script_no_range inp df (σ : Store) d err :
  σ !! df = Some d -> selected_range d inp = Err err -> script inp df σ = (Err err, σ).
Proof.
  intros Hdf Hsel. unfold script. apply bind_raise.
  by rewrite (date_selection_run _ _ _ _ Hdf), Hsel.
Qed.

Lemma script_inv inp df (σ σ' : Store) o :
  script inp df σ = (Ok o, σ') ->
  exists d s e css,
    σ !! df = Some d /\
    selected_range d inp = Ok (s, e) /\
    css_column (filter_dates d s e) inp = Ok css.
Proof.
  intros Hrun.
  destruct (σ !! df) as [d|] eqn:Hdf; [|by rewrite script_dangling in Hrun].
  destruct (selected_range d inp) as [[s e]|err] eqn:Hsel;
    [|by rewrite (script_no_range _ _ _ _ _ Hdf Hsel) in Hrun].
  rewrite (script_unfold _ _ _ _ _ _ Hdf Hsel) in Hrun.
  destruct (css_column (filter_dates d s e) inp) as [css|err] eqn:Hcss; [|done].
  by exists d, s, e, css.
Qed.

(** C10.  Whatever a run does, and whether it returns or raises, every object
    the store held before it is unchanged afterwards, the loaded dataset
    among them.  When the run returns, [df_filtered] is a new object, distinct
    from the dataset, and the CSS column is a column of that object. *)
Theorem dataset_is_not_modified (inp : Inputs) (df : loc) (σ : Store) :
  agree σ (script inp df σ).2 /\
  (forall d, σ !! df = Some d -> (script inp df σ).2 !! df = Some d) /\
  (forall o, (script inp df σ).1 = Ok o ->
     (df_filtered o ∉ dom σ) /\
     df_filtered o <> df /\
     exists d f,
       σ !! df = Some d /\
       (script inp df σ).2 !! df_filtered o = Some f /\
       is_Some (columns f !! "CSS")).
Proof.
  assert (Hag : agree σ (script inp df σ).2).
  { destruct (σ !! df) as [d|] eqn:Hdf;
      [|rewrite (script_dangling _ _ _ Hdf); apply agree_refl].
    destruct (selected_range d inp) as [[s e]|err] eqn:Hsel;
      [|rewrite (script_no_range _ _ _ _ _ Hdf Hsel); apply agree_refl].
    destruct (css_column (filter_dates d s e) inp) as [css|err] eqn:Hcss.
    - destruct (script_run _ _ _ _ _ _ _ Hdf Hsel Hcss) as (o & σ' & Hrun & H).
      rewrite Hrun. simpl. tauto.
    - rewrite (script_unfold _ _ _ _ _ _ Hdf Hsel), Hcss. simpl.
      set (f := filter_dates d s e). set (l1 := fresh (dom σ)).
      assert (Hl1 : l1 ∉ dom σ) by apply is_fresh.
      set (l2 := fresh (dom (<[l1 := f]> σ))).
      assert (Hl2 : l2 ∉ dom (<[l1 := f]> σ)) by apply is_fresh.
      assert (Hl2' : l2 ∉ dom σ).
      { intros Hin. apply Hl2. rewrite dom_insert_L. set_solver. }
      repeat apply agree_insert; try done; apply agree_refl. }
  split; [done|]. split.
  - intros d Hdf. rewrite <- Hdf. apply Hag. apply elem_of_dom. by rewrite Hdf.
  - intros o Ho. destruct (script inp df σ) as [r σ'] eqn:Hrun. simpl in Ho. subst r.
    destruct (script_inv _ _ _ _ _ Hrun) as (d & s & e & css & Hdf & Hsel & Hcss).
    destruct (script_run _ _ _ _ _ _ _ Hdf Hsel Hcss) as (o' & σ'' & Hrun' & Hnew & Hf & _).
    rewrite Hrun in Hrun'. injection Hrun' as <- <-.
    split; [done|]. split.
    + intros Heq. apply Hnew. rewrite Heq. apply elem_of_dom. by rewrite Hdf.
    + exists d, (setitem (filter_dates d s e) "CSS" css). simpl. repeat split; try done.
      by rewrite lookup_insert_eq.
Qed.

(** *** Aggregates *)







Lemma series_mean_absent (s : list value) : present s = [] -> series_mean s = None.
Proof. unfold series_mean. by intros ->. Qed.

Lemma time_mask_peak (idx : list Timestamp) :
  time_mask idx (clock 8 0) (clock 20 0) = map in_peak idx.
Proof. done. Qed.

Lemma peak_of_filter f css :
  peak_of f css = map snd (List.filter (fun p => in_peak p.1) (zip (index f) css)).
Proof. unfold peak_of. rewrite time_mask_peak. apply select_zip. Qed.



Lemma select_nil_of_false {A : Type} (p : Timestamp -> bool) idx (xs : list A) :
  Forall (fun t => p t = false) idx -> select (map p idx) xs = [].
Proof.
  intros H. revert xs. induction H as [|t idx Ht _ IH]; intros [|x xs]; simpl; try done.
  rewrite Ht. apply IH.
Qed.

Lemma css_column_length f inp css :
  cols_bounded f -> css_column f inp = Ok css -> (length css <= length (index f))%nat.
Proof.
  intros Hb Hcss.
  destruct (css_column_inv _ _ _ Hcss) as (market & gas & carbon & Em & _ & _ & _ & ->).
  unfold series_sub_scalar, series_sub. rewrite length_map, !length_zip_with.
  unfold getitem in Em. destruct (columns f !! _) as [c|] eqn:Hc; [|done].
  injection Em as ->. specialize (Hb _ _ Hc). lia.
Qed.

(** C3, as amended.  The run returns also when there is nothing to average.
    When no timestamp of the filtered frame is in the peak window the peak
    average is NaN, shown as the text nan; when the filtered frame is empty,
    or its CSS column has no observation, the average is NaN and shown as
    nan as well.  Neither is zero. *)
Theorem aggregates_without_data_are_nan
    (inp : Inputs) (df : loc) (σ : Store) (d : DataFrame) :
  σ !! df = Some d ->
  reaches_floor d ->
  has_columns d inp ->
  efficiency_pct inp <> 0 ->
  exists o σ' f css,
    script inp df σ = (Ok o, σ') /\
    σ' !! df_filtered o = Some f /\
    getitem f "CSS" = Ok css /\
    (Forall (fun t => in_peak t = false) (index f) ->
       peak_css o = None /\ peak_text o = "nan") /\
    (index f = [] ->
       avg_css o = None /\ avg_text o = "nan" /\ peak_css o = None /\ peak_text o = "nan") /\
    (present css = [] -> avg_css o = None /\ avg_text o = "nan").
Proof.
  intros Hdf Hne Hcols Heff.
  destruct (script_succeeds _ _ _ _ Hdf Hne Hcols Heff)
    as (o & σ' & s & e & css & Hrun & _ & Hcss & _ & Hf & Havg & Hpeak & Hat & Hpt & _).
  exists o, σ', (setitem (filter_dates d s e) "CSS" css), css.
  split; [done|]. split; [done|]. split; [apply getitem_setitem|].
  change (index (setitem _ _ _)) with (index (filter_dates d s e)).
  assert (Hnopeak : Forall (fun t => in_peak t = false) (index (filter_dates d s e)) ->
                    peak_css o = None /\ peak_text o = "nan").
  { intros Hall. assert (Hp : peak_css o = None).
    { rewrite Hpeak. unfold peak_of. rewrite time_mask_peak, select_nil_of_false; done. }
    split; [done|]. by rewrite Hpt, Hp. }
  assert (Hnone : present css = [] -> avg_css o = None /\ avg_text o = "nan").
  { intros Hp. assert (Ha : avg_css o = None) by (by rewrite Havg, series_mean_absent).
    split; [done|]. by rewrite Hat, Ha. }
  split; [done|]. split; [|done].
  intros Hidx.
  assert (Hnil : css = []).
  { pose proof (css_column_length _ _ _ (filter_dates_bounded d s e) Hcss) as Hlen.
    rewrite Hidx in Hlen. destruct css; [done|simpl in Hlen; lia]. }
  destruct Hnone as [? ?]; [by rewrite Hnil|].
  destruct Hnopeak as [? ?]; [rewrite Hidx; constructor|]. done.
Qed.

Lemma b64_efficiency_bound (pct : Z) :
  30 <= pct <= 65 -> B64.leb (B64.ratio 3 10) (B64.efficiency_of_pct pct) = true.
Proof.
  intros Hpct.
  assert (Hall : forallb (fun p => B64.leb (B64.ratio 3 10) (B64.efficiency_of_pct p))
                         (map Z.of_nat (seq 30 36)) = true) by (vm_compute; reflexivity).
  rewrite forallb_forall in Hall. apply Hall.
  apply List.in_map_iff. exists (Z.to_nat pct). split; [lia|]. apply in_seq. lia.
Qed.

(** C9.  With the slider in its range of 30 to 65 percent, the efficiency is
    at least 0.3, in exact arithmetic and as a binary64 quotient; it is not
    zero, so both divisions of the formula are defined and no run raises
    [ZeroDivisionError]. *)
Theorem efficiency_never_zero (inp : Inputs) :
  slider_ok inp ->
  (3 # 10 <= efficiency inp)%Q /\
  ~ (efficiency inp == 0)%Q /\
  float_div (emission_factor_th inp) (efficiency inp) =
    Ok (emission_factor_th inp / efficiency inp)%Q /\
  (forall x, cell_div (Some x) (efficiency inp) = Some (x / efficiency inp)%Q) /\
  (forall f, css_column f inp <> Err ZeroDivisionError) /\
  B64.leb (B64.ratio 3 10) (B64.efficiency_of_pct (efficiency_pct inp)) = true.
Proof.
  intros [Hpct _].
  assert (Hne : Qeq_bool (efficiency inp) 0 = false) by (apply efficiency_nonzero; lia).
  assert (Hlo : (3 # 10 <= efficiency inp)%Q).
  { unfold efficiency, efficiency_of_pct, Qle, Qdiv. simpl. lia. }
  split; [done|]. split; [lra|].
  split; [unfold float_div; by rewrite Hne|].
  split; [intros x; unfold cell_div; by rewrite Hne|].
  split; [|by apply b64_efficiency_bound].
  intros f. unfold css_column, float_div, getitem. rewrite Hne.
  destruct (columns f !! country_column _); [|done].
  destruct (columns f !! gas_column _); [|done]. simpl.
  destruct (columns f !! "EUA Prices"); done.
Qed.

(** *** The sample runs *)

Lemma sample_has_columns : has_columns sample_frame sample_inputs.
Proof. repeat split; by eexists. Qed.

Lemma night_has_columns inp :
  country inp = FR -> gas_index inp = PEG -> has_columns night_frame inp.
Proof. intros Hc Hg. unfold has_columns. rewrite Hc, Hg. repeat split; by eexists. Qed.

Lemma sample_reaches_floor : reaches_floor sample_frame.
Proof.
  exists (stamp 2025 4 1 7 0). split; [simpl; tauto|]. vm_compute. discriminate.
Qed.

Lemma night_reaches_floor : reaches_floor night_frame.
Proof.
  exists (stamp 2025 4 1 7 0). split; [simpl; tauto|]. vm_compute. discriminate.
Qed.

Lemma store_of_lookup d : store_of d !! 1%positive = Some d.
Proof. apply lookup_singleton_eq. Qed.

(** C3, as stated, fails.  On [night_frame] with the default range no
    timestamp of the filtered frame is in the peak window and the page shows
    the text nan for the peak average; with the two empty days picked the
    filtered frame is empty and the page shows nan for both averages. *)
Lemma peak_without_data_displays_nan :
  (exists o σ',
     script sample_inputs 1%positive (store_of night_frame) = (Ok o, σ') /\
     (exists f, σ' !! df_filtered o = Some f /\
                index f <> [] /\ Forall (fun t => in_peak t = false) (index f)) /\
     peak_css o = None /\
     peak_text o = "nan") /\
  (exists o σ',
     script gap_inputs 1%positive (store_of night_frame) = (Ok o, σ') /\
     (exists f, σ' !! df_filtered o = Some f /\ index f = []) /\
     avg_css o = None /\
     avg_text o = "nan" /\
     peak_text o = "nan").
Proof.
  split.
  - edestruct (script_run sample_inputs 1%positive (store_of night_frame) night_frame)
      as (o & σ' & Hrun & _ & Hf & Havg & Hpeak & Hat & Hpt & _);
      [apply store_of_lookup | vm_compute; reflexivity | vm_compute; reflexivity |].
    exists o, σ'. split; [exact Hrun|].
    assert (Hp : peak_css o = None) by (rewrite Hpeak; vm_compute; reflexivity).
    split; [|rewrite Hpt, Hp; split; reflexivity].
    eexists. split; [exact Hf|]. split; [discriminate|]. repeat constructor.
  - edestruct (script_run gap_inputs 1%positive (store_of night_frame) night_frame)
      as (o & σ' & Hrun & _ & Hf & Havg & Hpeak & Hat & Hpt & _);
      [apply store_of_lookup | vm_compute; reflexivity | vm_compute; reflexivity |].
    exists o, σ'. split; [exact Hrun|].
    assert (Hp : peak_css o = None) by (rewrite Hpeak; vm_compute; reflexivity).
    assert (Ha : avg_css o = None) by (rewrite Havg; vm_compute; reflexivity).
    split; [|rewrite Hat, Hpt, Hp, Ha; repeat split; reflexivity].
    eexists. split; [exact Hf|]. reflexivity.
Qed.


(** On [whole_frame] the cells and the rounded average are the same in
    binary64 as over the rationals. *)
Example whole_mean_in_binary64 :
  let cell m := B64.css (B64.of_Z m) (B64.of_Z 30) (B64.of_Z 50)
                        (B64.efficiency_of_pct 50) (B64.ratio 1 4) (B64.of_Z 2) in
  cell 117 = B64.of_Z 30 /\ cell 116 = B64.of_Z 29 /\
  cell 118 = B64.of_Z 31 /\ cell 120 = B64.of_Z 33 /\
  B64.round2
    (B64.div (B64.add (B64.add (B64.add (cell 117) (cell 116)) (cell 118)) (cell 120))
             (B64.of_Z 4)) = B64.ratio 3075 100.
Proof.
  vm_compute. repeat split.
Qed.


Lemma sample_well_formed : well_formed sample_frame.
Proof.
  intros name s H.
  apply (map_Forall_lookup_1 (fun _ s => length s = length (index sample_frame))
           (columns sample_frame) name s); [|exact H].
  unfold sample_frame. simpl. repeat (apply map_Forall_insert_2; [reflexivity|]).
  apply map_Forall_empty.
Qed.






Lemma aggregates_without_data_are_nan_witness :
  store_of night_frame !! 1%positive = Some night_frame /\
  reaches_floor night_frame /\
  has_columns night_frame gap_inputs /\
  efficiency_pct gap_inputs <> 0 /\
  exists o σ' f css,
    script gap_inputs 1%positive (store_of night_frame) = (Ok o, σ') /\
    σ' !! df_filtered o = Some f /\
    getitem f "CSS" = Ok css /\
    (Forall (fun t => in_peak t = false) (index f) ->
       peak_css o = None /\ peak_text o = "nan") /\
    (index f = [] ->
       avg_css o = None /\ avg_text o = "nan" /\ peak_css o = None /\ peak_text o = "nan") /\
    (present css = [] -> avg_css o = None /\ avg_text o = "nan").
Proof.
  split; [apply store_of_lookup|]. split; [apply night_reaches_floor|].
  split; [by apply night_has_columns|]. split; [discriminate|].
  apply (aggregates_without_data_are_nan gap_inputs 1%positive (store_of night_frame)
           night_frame).
  - apply store_of_lookup.
  - apply night_reaches_floor.
  - by apply night_has_columns.
  - discriminate.
Defined.

Lemma missing_input_propagates_witness :
  store_of sample_frame !! 1%positive = Some sample_frame /\
  reaches_floor sample_frame /\
  well_formed sample_frame /\
  has_columns sample_frame sample_inputs /\
  efficiency_pct sample_inputs <> 0 /\
  exists o σ' f,
    script sample_inputs 1%positive (store_of sample_frame) = (Ok o, σ') /\
    σ' !! df_filtered o = Some f /\
    forall i t, index f !! i = Some t ->
      exists m g c,
        cell f "FR" i = Some m /\
        cell f "PEG" i = Some g /\
        cell f "EUA Prices" i = Some c /\
        (m = None \/ g = None \/ c = None -> cell f "CSS" i = Some None).
Proof.
  split; [apply store_of_lookup|]. split; [apply sample_reaches_floor|].
  split; [apply sample_well_formed|].
  split; [apply sample_has_columns|]. split; [discriminate|].
  apply (proj1 missing_input_propagates sample_inputs 1%positive (store_of sample_frame)
           sample_frame).
  - apply store_of_lookup.
  - apply sample_reaches_floor.
  - apply sample_well_formed.
  - apply sample_has_columns.
  - discriminate.
Defined.


Lemma css_monotone_in_market_witness :
  let m1 := [Some 90%Q; Some 100%Q; Some 100%Q; None; Some 50%Q] in
  let m2 := [Some 95%Q; Some 100%Q; Some 120%Q; None; Some 51%Q] in
  Forall2 cell_le m1 m2 /\
  exists a1,
    css_column (setitem sample_frame "FR" m1) sample_inputs = Ok a1 /\
    exists a2,
      css_column (setitem sample_frame "FR" m2) sample_inputs = Ok a2 /\
      Forall2 cell_le a1 a2.
Proof.
  intros m1 m2.
  assert (Hle : Forall2 cell_le m1 m2).
  { repeat (constructor; try (unfold Qle; simpl; lia)). }
  split; [exact Hle|].
  eexists. split; [vm_compute; reflexivity|].
  apply (css_monotone_in_market sample_frame sample_inputs m1 m2); [exact Hle|].
  vm_compute; reflexivity.
Defined.

Lemma date_filter_keeps_range_witness :
  index sample_frame <> [] /\
  rows (filter_dates sample_frame 20179 20180) =
    List.filter (in_range 20179 20180) (rows sample_frame) /\
  min_date sample_frame = Ok 20179 /\
  max_date sample_frame = Ok 20180.
Proof.
  split; [discriminate|].
  destruct (date_filter_keeps_range sample_frame 20179 20180) as (Hrows & _ & _);
    [discriminate|].
  split; [exact Hrows|]. split; reflexivity.
Defined.

Lemma date_filter_idempotent_witness :
  let r := filter_dates sample_frame floor_date (floor_date + 1) in
  floor_date <= floor_date /\
  filter_dates r floor_date (floor_date + 1) = r /\
  match min_date r, max_date r with
  | Ok lo, Ok hi => filter_dates r lo hi = r
  | _, _ => index r = []
  end.
Proof.
  intros r.
  pose proof (date_filter_idempotent sample_frame floor_date (floor_date + 1)) as (H1 & _ & H3).
  split; [lia|]. split; [exact H1|]. apply H3. lia.
Defined.

Lemma efficiency_never_zero_witness :
  slider_ok sample_inputs /\
  (3 # 10 <= efficiency sample_inputs)%Q /\
  ~ (efficiency sample_inputs == 0)%Q /\
  forall f, css_column f sample_inputs <> Err ZeroDivisionError.
Proof.
  assert (Hok : slider_ok sample_inputs).
  { repeat split; try (simpl; lia); unfold Qle; simpl; lia. }
  split; [exact Hok|].
  destruct (efficiency_never_zero sample_inputs Hok) as (H1 & H2 & _ & _ & H5 & _).
  split; [exact H1|]. split; [exact H2|exact H5].
Defined.

Lemma dataset_is_not_modified_witness :
  store_of sample_frame !! 1%positive = Some sample_frame /\
  (script sample_inputs 1%positive (store_of sample_frame)).2 !! 1%positive =
    Some sample_frame.
Proof.
  split; [apply store_of_lookup|].
  apply (proj1 (proj2 (dataset_is_not_modified sample_inputs 1%positive
                         (store_of sample_frame)))).
  apply store_of_lookup.
Defined.

(** *** More on the date filter *)

Lemma select_select {A : Type} (p1 p2 : Timestamp -> bool) idx (xs : list A) :
  select (map p2 (select (map p1 idx) idx)) (select (map p1 idx) xs) =
  select (map (fun t => p1 t && p2 t) idx) xs.
Proof.
  revert xs. induction idx as [|t idx IH]; intros [|x xs]; simpl; try done.
  - by rewrite select_nil_r.
  - destruct (p1 t); simpl; [|apply IH]. destruct (p2 t); by rewrite IH.
Qed.

Lemma select_sublist {A : Type} (mask : list bool) (xs : list A) :
  select mask xs `sublist_of` xs.
Proof.
  revert xs. induction mask as [|b mask IH]; intros xs.
  - destruct xs; simpl; apply sublist_nil_l.
  - destruct xs as [|x xs]; simpl; [constructor|].
    destruct b; constructor; apply IH.
Qed.

Lemma sublist_strongly_sorted (l1 l2 : list Z) :
  l1 `sublist_of` l2 -> StronglySorted Z.lt l2 -> StronglySorted Z.lt l1.
Proof.
  induction 1 as [|x l1 l2 Hsub IH|x l1 l2 Hsub IH]; intros Hs; [done| |].
  - inversion Hs as [|? ? Hs' Hall]; subst. constructor; [by apply IH|].
    rewrite List.Forall_forall in *. intros y Hy. apply Hall.
    apply list_elem_of_In. eapply elem_of_sublist; [|exact Hsub]. by apply list_elem_of_In.
  - inversion Hs; subst. by apply IH.
Qed.

(** X1.  Filtering by dates twice is filtering once by the intersection of
    the two intervals. *)
Theorem filter_dates_compose (df : DataFrame) (a b c d : Date) :
  filter_dates (filter_dates df a b) c d = filter_dates df (Z.max a c) (Z.min b d).
Proof.
  unfold filter_dates, getitem_mask. rewrite !date_mask_map. simpl.
  assert (Hmask : map (fun t => (Z.max a c <=? date_of t) && (date_of t <=? Z.min b d)) (index df)
                  = map (fun t => ((a <=? date_of t) && (date_of t <=? b)) &&
                                  ((c <=? date_of t) && (date_of t <=? d))) (index df)).
  { apply List.map_ext. intros t.
    destruct (Z.leb_spec a (date_of t)), (Z.leb_spec (date_of t) b),
             (Z.leb_spec c (date_of t)), (Z.leb_spec (date_of t) d),
             (Z.leb_spec (Z.max a c) (date_of t)), (Z.leb_spec (date_of t) (Z.min b d));
      simpl; try reflexivity; lia. }
  rewrite Hmask. f_equal.
  - apply (select_select (fun t => (a <=? date_of t) && (date_of t <=? b))
                         (fun t => (c <=? date_of t) && (date_of t <=? d))).
  - apply map_eq. intros name. rewrite !lookup_fmap.
    destruct (columns df !! name) as [col|]; simpl; [|done]. f_equal.
    apply (select_select (fun t => (a <=? date_of t) && (date_of t <=? b))
                         (fun t => (c <=? date_of t) && (date_of t <=? d))).
Qed.

(** X2.  When no timestamp of the dataset has its date in the interval (in
    particular when the interval ends before it starts), the filtered frame
    has an empty index and every one of its columns is empty. *)
Theorem filter_dates_no_match (df : DataFrame) (s e : Date) :
  Forall (fun t => date_of t < s \/ e < date_of t) (index df) ->
  index (filter_dates df s e) = [] /\
  forall name col, columns (filter_dates df s e) !! name = Some col -> col = [].
Proof.
  intros Hall.
  assert (Hsel : forall A (xs : list A), select (date_mask df s e) xs = []).
  { intros A xs. rewrite date_mask_map. apply select_nil_of_false.
    eapply List.Forall_impl; [|exact Hall]. intros t Ht. simpl in Ht.
    destruct (Z.leb_spec s (date_of t)), (Z.leb_spec (date_of t) e); simpl; try reflexivity; lia. }
  unfold filter_dates, getitem_mask. simpl. split; [apply Hsel|].
  intros name col. rewrite lookup_fmap.
  destruct (columns df !! name); simpl; [|done]. intros [= <-]. apply Hsel.
Qed.

(** X3.  The date filter only drops rows: the filtered index and every
    filtered column are sublists of the original ones, every column is kept,
    and an increasing index stays increasing. *)
Theorem filter_dates_keeps_order (df : DataFrame) (s e : Date) :
  index (filter_dates df s e) `sublist_of` index df /\
  (forall name col,
     columns df !! name = Some col ->
     exists col', columns (filter_dates df s e) !! name = Some col' /\
                  col' `sublist_of` col) /\
  (StronglySorted Z.lt (index df) -> StronglySorted Z.lt (index (filter_dates df s e))).
Proof.
  unfold filter_dates, getitem_mask. simpl. split; [apply select_sublist|]. split.
  - intros name col Hcol. rewrite lookup_fmap, Hcol. simpl.
    eexists. split; [reflexivity|apply select_sublist].
  - apply sublist_strongly_sorted, select_sublist.
Qed.

(** X4.  The date filter keeps a frame well formed (every column as long as
    the index), keeps the set of column names, and its index is the list of
    the timestamps whose date is in the interval. *)
Theorem filter_dates_shape (df : DataFrame) (s e : Date) :
  well_formed df ->
  well_formed (filter_dates df s e) /\
  dom (columns (filter_dates df s e)) = dom (columns df) /\
  index (filter_dates df s e) =
    List.filter (fun t => (s <=? date_of t) && (date_of t <=? e)) (index df).
Proof.
  intros Hwf. split; [by apply filter_dates_well_formed|]. split.
  - unfold filter_dates, getitem_mask. simpl. apply dom_fmap_L.
  - unfold filter_dates, getitem_mask. simpl. rewrite date_mask_map.
    apply select_map_filter.
Qed.

Lemma select_zip_with {A B C : Type} (f : A -> B -> C) mask (xs : list A) (ys : list B) :
  select mask (zip_with f xs ys) = zip_with f (select mask xs) (select mask ys).
Proof.
  revert xs ys. induction mask as [|b mask IH]; intros [|x xs] [|y ys]; simpl; try done.
  - destruct b; [done|]. by destruct (select mask xs).
  - destruct b; simpl; by rewrite ?IH.
Qed.

Lemma select_map {A B : Type} (f : A -> B) mask (xs : list A) :
  select mask (map f xs) = map f (select mask xs).
Proof.
  revert xs. induction mask as [|b mask IH]; intros [|x xs]; simpl; try done.
  destruct b; simpl; by rewrite IH.
Qed.

(** X5.  Computing the CSS column after the date filter gives the date-filtered
    CSS column of the whole dataset, and raises the same exception when that
    one raises: the spread at a timestamp does not depend on the dates
    picked. *)
Theorem css_column_filter_dates (d : DataFrame) (inp : Inputs) (s e : Date) :
  css_column (filter_dates d s e) inp =
  match css_column d inp with
  | Ok css => Ok (select (date_mask d s e) css)
  | Err err => Err err
  end.
Proof.
  assert (Hget : forall name,
             getitem (filter_dates d s e) name =
             match getitem d name with
             | Ok col => Ok (select (date_mask d s e) col)
             | Err err => Err err
             end).
  { intros name. unfold getitem, filter_dates, getitem_mask. simpl. rewrite lookup_fmap.
    by destruct (columns d !! name). }
  unfold css_column. rewrite !Hget.
  destruct (getitem d (country_column _)) as [market|]; [|done].
  destruct (getitem d (gas_column _)) as [gas|]; [|done]. simpl.
  destruct (getitem d "EUA Prices") as [carbon|]; [|done]. simpl.
  destruct (float_div _ _) as [k|]; [|done]. simpl. f_equal.
  unfold series_sub_scalar, series_sub, series_mul_scalar, series_div_scalar.
  by rewrite !select_map, !select_zip_with, !select_map.
Qed.

(** *** The chart, the table and the whole page *)


Lemma chart_run l (σ : Store) f css :
  σ !! l = Some f -> getitem f "CSS" = Ok css -> chart l σ = (Ok (figure_of f css), σ).
Proof.
  intros Hl Hcss. unfold chart.
  step (load_run _ _ _ Hl).
  do 4 step (lift_run _ σ _ Hcss). done.
Qed.

Lemma table_run inp l (σ : Store) f t :
  σ !! l = Some f ->
  getitem_list f (table_columns inp) = Ok t ->
  raw_data_table inp l σ = (Ok (fresh (dom σ)), <[fresh (dom σ) := t]> σ).
Proof.
  intros Hl Ht. unfold raw_data_table.
  step (load_run _ _ _ Hl). step (lift_run _ σ _ Ht). done.
Qed.

Lemma pick_columns_ok cols names :
  Forall (fun n => is_Some (cols !! n)) names ->
  exists picked,
    pick_columns cols names = Ok picked /\
    forall n, picked !! n = if decide (n ∈ names) then cols !! n else None.
Proof.
  induction 1 as [|n names [col Hcol] _ (picked & Hpick & Hlook)]; simpl.
  - exists ∅. split; [done|]. intros n. rewrite lookup_empty.
    by destruct (decide (n ∈ [])).
  - rewrite Hcol, Hpick. simpl. eexists. split; [reflexivity|].
    intros m. destruct (decide (m = n)) as [->|Hne].
    + rewrite lookup_insert_eq, decide_True by constructor. done.
    + rewrite lookup_insert_ne, Hlook by done.
      destruct (decide (m ∈ names)) as [Hin|Hnin].
      * by rewrite decide_True by (by constructor).
      * rewrite decide_False; [done|]. intros Hin. apply elem_of_cons in Hin as [?|?]; done.
Qed.

Lemma table_columns_present f inp css :
  css_column f inp = Ok css ->
  Forall (fun n => is_Some (columns (setitem f "CSS" css) !! n)) (table_columns inp).
Proof.
  intros Hcss.
  destruct (css_column_inv _ _ _ Hcss) as (market & gas & carbon & Em & Eg & Ec & _).
  assert (Hsome : forall name col, getitem f name = Ok col ->
                                   is_Some (columns (setitem f "CSS" css) !! name)).
  { intros name col. unfold getitem, setitem. simpl.
    destruct (columns f !! name) eqn:Hc; [|done]. intros _.
    destruct (decide ("CSS" = name)) as [<-|Hne];
      [rewrite lookup_insert_eq|rewrite lookup_insert_ne, Hc by done]; by eexists. }
  unfold table_columns. repeat constructor; eauto.
  unfold setitem. simpl. rewrite lookup_insert_eq. by eexists.
Qed.

Lemma getitem_list_table f inp css :
  css_column f inp = Ok css ->
  exists picked,
    getitem_list (setitem f "CSS" css) (table_columns inp) = Ok (mkDF (index f) picked) /\
    forall n, picked !! n =
              if decide (n ∈ table_columns inp)
              then columns (setitem f "CSS" css) !! n else None.
Proof.
  intros Hcss.
  destruct (pick_columns_ok _ _ (table_columns_present _ _ _ Hcss)) as (picked & Hpick & Hlook).
  exists picked. split; [|done]. unfold getitem_list. by rewrite Hpick.
Qed.

Lemma page_dangling inp df (σ : Store) :
  σ !! df = None -> page inp df σ = (Err Dangling, σ).
Proof.
  intros Hdf. unfold page. apply bind_raise. by apply date_selection_dangling.
Qed.

Lemma page_no_range inp df (σ : Store) d err :
  σ !! df = Some d -> selected_range d inp = Err err -> page inp df σ = (Err err, σ).
Proof.
  intros Hdf Hsel. unfold page. apply bind_raise.
  by rewrite (date_selection_run _ _ _ _ Hdf), Hsel.
Qed.

(** The whole page against the run without chart and table: the same error
    and store when the run raises; otherwise the same outputs, the figure
    of the filtered frame, and one more object, the table. *)
Lemma page_unfold inp df (σ : Store) d s e :
  σ !! df = Some d ->
  selected_range d inp = Ok (s, e) ->
  match css_column (filter_dates d s e) inp with
  | Err err =>
      exists σ', script inp df σ = (Err err, σ') /\ page inp df σ = (Err err, σ') /\
                 agree σ σ'
  | Ok css =>
      exists o σ' picked,
        script inp df σ = (Ok o, σ') /\
        (forall n, picked !! n =
                   if decide (n ∈ table_columns inp)
                   then columns (setitem (filter_dates d s e) "CSS" css) !! n else None) /\
        page inp df σ =
          (Ok (mkPage o (figure_of (filter_dates d s e) css) (fresh (dom σ'))),
           <[fresh (dom σ') := mkDF (index (filter_dates d s e)) picked]> σ')
  end.
Proof.
  intros Hdf Hsel. rewrite (script_unfold _ _ _ _ _ _ Hdf Hsel).
  set (f := filter_dates d s e).
  set (l1 := fresh (dom σ)).
  set (l2 := fresh (dom (<[l1 := f]> σ))).
  set (σ2 := <[l2 := f]> (<[l2 := f]> (<[l1 := f]> σ))).
  assert (Hsel' : date_selection inp df σ = (Ok (s, e), σ))
    by (by rewrite (date_selection_run _ _ _ _ Hdf), Hsel).
  assert (H2 : σ2 !! l2 = Some f) by apply lookup_insert_eq.
  pose proof (calculate_css_run inp l2 σ2 f H2) as Hcalc.
  destruct (css_column f inp) as [css|err] eqn:Hcss.
  - destruct (getitem_list_table _ _ _ Hcss) as (picked & Htab & Hlook).
    set (fc := setitem f "CSS" css) in *.
    set (σ3 := <[l2 := fc]> σ2) in *.
    assert (H3 : σ3 !! l2 = Some fc) by apply lookup_insert_eq.
    pose proof (metrics_run l2 σ3 fc css H3 (getitem_setitem f "CSS" css)) as Hmet.
    cbv zeta in Hmet.
    set (pk := between_time fc (clock 8 0) (clock 20 0)) in *.
    set (l3 := fresh (dom σ3)) in *.
    set (l4 := fresh (dom (<[l3 := pk]> σ3))) in *.
    set (σ5 := <[l4 := pk]> (<[l3 := pk]> σ3)) in *.
    assert (H5 : σ5 !! l2 = Some fc).
    { assert (l3 <> l2).
      { intros Heq. apply (is_fresh (dom σ3)). fold l3. rewrite Heq.
        apply elem_of_dom. by rewrite H3. }
      assert (l4 <> l2).
      { intros Heq. apply (is_fresh (dom (<[l3 := pk]> σ3))). fold l4. rewrite Heq.
        apply elem_of_dom. rewrite lookup_insert_ne by done. by rewrite H3. }
      unfold σ5. by rewrite !lookup_insert_ne. }
    eexists _, _, picked. split; [reflexivity|]. split; [exact Hlook|].
    unfold page. step Hsel'.
    step (filter_by_date_run df σ d s e Hdf). fold f l1 l2 σ2.
    step Hcalc. fold fc σ3.
    step (chart_run l2 σ3 fc css H3 (getitem_setitem f "CSS" css)).
    step Hmet.
    step (table_run inp l2 σ5 fc _ H5 Htab). done.
  - exists σ2. split; [done|]. split.
    + unfold page. step Hsel'.
      step (filter_by_date_run df σ d s e Hdf). fold f l1 l2 σ2.
      by rewrite (bind_raise _ _ _ _ _ Hcalc).
    + assert (Hl1 : l1 ∉ dom σ) by apply is_fresh.
      assert (Hl2 : l2 ∉ dom (<[l1 := f]> σ)) by apply is_fresh.
      assert (Hl2' : l2 ∉ dom σ).
      { intros Hin. apply Hl2. rewrite dom_insert_L. set_solver. }
      unfold σ2. repeat apply agree_insert; try done; apply agree_refl.
Qed.

Lemma agree_dom (σ0 σ : Store) l : agree σ0 σ -> l ∈ dom σ0 -> l ∈ dom σ.
Proof.
  intros Hag Hl. apply elem_of_dom. rewrite (Hag _ Hl). by apply elem_of_dom.
Qed.

Lemma agree_fresh (σ0 σ : Store) : agree σ0 σ -> fresh (dom σ) ∉ dom σ0.
Proof. intros Hag Hin. apply (is_fresh (dom σ)). by apply (agree_dom σ0). Qed.

Lemma selected_range_ok_iff d inp :
  (exists r, selected_range d inp = Ok r) <-> reaches_floor d.
Proof.
  split.
  - intros [r Hr]. unfold selected_range, min_date, date_input, max_date in Hr.
    destruct (py_min (index_dates d)) as [lo|] eqn:Hlo; [|done].
    destruct (py_max (index_dates d)) as [hi|] eqn:Hhi; [|done].
    unfold mbind, result_bind in Hr.
    destruct (Z.ltb_spec hi (Z.max lo floor_date)) as [|Hle]; [done|].
    assert (Hd : index_dates d <> []) by (intros Hnil; by rewrite Hnil in Hhi).
    destruct (py_max_spec _ Hd) as (hi' & Hhi' & Hin & _).
    rewrite Hhi in Hhi'. injection Hhi' as <-.
    apply List.in_map_iff in Hin as (t & Ht & Hin). exists t. split; [done|]. lia.
  - intros (t & Ht & Hfloor).
    assert (Hin : In (date_of t) (index_dates d)) by (by apply List.in_map).
    assert (Hd : index_dates d <> []) by (by destruct (index_dates d)).
    destruct (py_min_spec _ Hd) as (lo & Hlo & Hlo_in & Hlo_le).
    destruct (py_max_spec _ Hd) as (hi & Hhi & _ & Hhi_ge).
    rewrite List.Forall_forall in Hlo_le, Hhi_ge.
    pose proof (Hhi_ge _ Hlo_in). pose proof (Hhi_ge _ Hin).
    eexists. unfold selected_range, min_date, max_date, date_input. rewrite Hlo, Hhi.
    unfold mbind, result_bind.
    destruct (Z.ltb_spec hi (Z.max lo floor_date)); [lia|reflexivity].
Qed.

Lemma has_columns_filter_dates d inp s e :
  has_columns (filter_dates d s e) inp <-> has_columns d inp.
Proof.
  unfold has_columns, filter_dates, getitem_mask. simpl.
  rewrite !lookup_fmap, !fmap_is_Some. done.
Qed.

Lemma css_column_ok_iff f inp :
  (exists css, css_column f inp = Ok css) <-> has_columns f inp /\ efficiency_pct inp <> 0.
Proof.
  split.
  - intros [css Hcss].
    destruct (css_column_inv _ _ _ Hcss) as (market & gas & carbon & Em & Eg & Ec & Heff & _).
    unfold getitem in Em, Eg, Ec. unfold has_columns.
    destruct (columns f !! country_column _); [|done].
    destruct (columns f !! gas_column _); [|done].
    destruct (columns f !! "EUA Prices"); [|done].
    repeat split; try by eexists.
    intros Hz. unfold efficiency, efficiency_of_pct in Heff. by rewrite Hz in Heff.
  - intros [(Hm & Hg & Hc) Heff].
    apply getitem_is_Some in Hm as [market Hm], Hg as [gas Hg], Hc as [carbon Hc].
    eexists. by apply css_column_ok.
Qed.


Lemma page_succeeds inp df (σ : Store) d :
  σ !! df = Some d ->
  reaches_floor d ->
  has_columns d inp ->
  efficiency_pct inp <> 0 ->
  exists pg σ' s e css picked,
    page inp df σ = (Ok pg, σ') /\
    selected_range d inp = Ok (s, e) /\
    css_column (filter_dates d s e) inp = Ok css /\
    (exists σ'', script inp df σ = (Ok (page_outputs pg), σ'')) /\
    (df_filtered (page_outputs pg) ∉ dom σ) /\
    σ' !! df_filtered (page_outputs pg) = Some (setitem (filter_dates d s e) "CSS" css) /\
    page_figure pg = figure_of (filter_dates d s e) css /\
    (page_table pg ∉ dom σ) /\
    page_table pg <> df_filtered (page_outputs pg) /\
    σ' !! page_table pg = Some (mkDF (index (filter_dates d s e)) picked) /\
    (forall n, picked !! n =
               if decide (n ∈ table_columns inp)
               then columns (setitem (filter_dates d s e) "CSS" css) !! n else None) /\
    avg_css (page_outputs pg) = round2 (series_mean css) /\
    peak_css (page_outputs pg) =
      round2 (series_mean (peak_of (filter_dates d s e) css)) /\
    agree σ σ'.
Proof.
  intros Hdf Hfloor Hcols Heff.
  destruct (script_total _ _ _ _ Hdf Hfloor Hcols Heff) as (s & e & css & Hsel & Hcss).
  pose proof (page_unfold inp df σ d s e Hdf Hsel) as Hpage. rewrite Hcss in Hpage.
  destruct Hpage as (o & σs & picked & Hscript & Hlook & Hpage).
  destruct (script_run _ _ _ _ _ _ _ Hdf Hsel Hcss)
    as (o' & σs' & Hrun & Hnew & Hf & Havg & Hpeak & _ & _ & Hag).
  rewrite Hscript in Hrun. injection Hrun as <- <-.
  assert (Hne : fresh (dom σs) <> df_filtered o).
  { intros Heq. apply (is_fresh (dom σs)). rewrite Heq. apply elem_of_dom. by rewrite Hf. }
  eexists _, _, s, e, css, picked. split; [exact Hpage|]. simpl.
  split; [done|]. split; [done|]. split; [by eexists|]. split; [done|].
  split; [by rewrite lookup_insert_ne|]. split; [done|].
  split; [by apply agree_fresh|]. split; [done|].
  split; [by rewrite lookup_insert_eq|]. split; [done|]. split; [done|]. split; [done|].
  apply agree_insert; [done|by apply agree_fresh].
Qed.



(** X9.  A run that returns without raising was given a loaded dataset with
    an observation on or after 2025-04-01 and the three selected columns,
    and an efficiency that is not zero. *)
Theorem page_returns_only_if (inp : Inputs) (df : loc) (σ σ' : Store) (pg : Page) :
  page inp df σ = (Ok pg, σ') ->
  exists d,
    σ !! df = Some d /\
    reaches_floor d /\ has_columns d inp /\ efficiency_pct inp <> 0.
Proof.
  intros Hrun.
  destruct (σ !! df) as [d|] eqn:Hdf; [|by rewrite (page_dangling _ _ _ Hdf) in Hrun].
  exists d. split; [reflexivity|].
  destruct (selected_range d inp) as [[s e]|err] eqn:Hsel;
    [|by rewrite (page_no_range _ _ _ _ _ Hdf Hsel) in Hrun].
  pose proof (page_unfold inp df σ d s e Hdf Hsel) as Hpage.
  destruct (css_column (filter_dates d s e) inp) as [css|err] eqn:Hcss.
  - split; [apply (selected_range_ok_iff d inp); by eexists|].
    assert (Hok : exists css, css_column (filter_dates d s e) inp = Ok css)
      by (by exists css).
    apply css_column_ok_iff in Hok as [Hcols Hne].
    split; [by apply (has_columns_filter_dates d inp s e)|done].
  - destruct Hpage as (σ'' & _ & Hpage & _). by rewrite Hpage in Hrun.
Qed.

Lemma setitem_well_formed f name col :
  well_formed f -> length col = length (index f) -> well_formed (setitem f name col).
Proof.
  intros Hwf Hlen n c. unfold setitem. simpl.
  destruct (decide (name = n)) as [->|Hne].
  - rewrite lookup_insert_eq. by intros [= <-].
  - rewrite lookup_insert_ne by done. apply Hwf.
Qed.

(** X10.  After a run on a well-formed dataset, [df_filtered] is well formed
    (the CSS column has one cell per timestamp), its index is the timestamps
    of the selected dates, and it holds every column of the dataset,
    restricted to the selected rows, plus the CSS column. *)
Theorem filtered_frame_shape (inp : Inputs) (df : loc) (σ : Store) (d : DataFrame) :
  σ !! df = Some d ->
  reaches_floor d ->
  well_formed d ->
  has_columns d inp ->
  efficiency_pct inp <> 0 ->
  exists pg σ' s e fc,
    page inp df σ = (Ok pg, σ') /\
    selected_range d inp = Ok (s, e) /\
    σ' !! df_filtered (page_outputs pg) = Some fc /\
    well_formed fc /\
    index fc = List.filter (fun t => (s <=? date_of t) && (date_of t <=? e)) (index d) /\
    dom (columns fc) = {["CSS"]} ∪ dom (columns d) /\
    forall name col,
      name <> "CSS" ->
      columns d !! name = Some col ->
      columns fc !! name = Some (select (date_mask d s e) col).
Proof.
  intros Hdf Hfloor Hwf Hcols Heff.
  destruct (page_succeeds _ _ _ _ Hdf Hfloor Hcols Heff)
    as (pg & σ' & s & e & css & picked & Hrun & Hsel & Hcss & _ & _ & Hf & _).
  pose proof (filter_dates_well_formed d s e Hwf) as Hwf'.
  exists pg, σ', s, e, (setitem (filter_dates d s e) "CSS" css).
  split; [done|]. split; [done|]. split; [done|].
  split; [apply setitem_well_formed; [done|by apply css_column_length_eq with inp]|].
  split; [|split].
  - unfold setitem, filter_dates, getitem_mask. simpl. rewrite date_mask_map.
    apply select_map_filter.
  - unfold setitem, filter_dates, getitem_mask. simpl. by rewrite dom_insert_L, dom_fmap_L.
  - intros name col Hne Hcol. unfold setitem, filter_dates, getitem_mask. simpl.
    rewrite lookup_insert_ne by done. by rewrite lookup_fmap, Hcol.
Qed.

Lemma clip_split (x : Q) :
  let p := if Qle_bool 0 x then x else 0%Q in
  let n := if Qle_bool x 0 then x else 0%Q in
  (p + n == x)%Q /\ (0 <= p)%Q /\ (n <= 0)%Q /\ (p == 0 \/ n == 0)%Q.
Proof.
  simpl.
  destruct (Qle_bool 0 x) eqn:Hp; destruct (Qle_bool x 0) eqn:Hn.
  - apply Qle_bool_iff in Hp, Hn. repeat split; lra.
  - apply Qle_bool_iff in Hp. repeat split; lra.
  - apply Qle_bool_iff in Hn. repeat split; lra.
  - assert (~ (0 <= x)%Q) by (rewrite <- Qle_bool_iff; by rewrite Hp).
    assert (~ (x <= 0)%Q) by (rewrite <- Qle_bool_iff; by rewrite Hn).
    exfalso. destruct (Qlt_le_dec 0 x); [apply H; lra|done].
Qed.

(** X11.  The figure has three traces over the filtered index: the line of
    the CSS column and the two bar traces.  At every timestamp the positive
    bar is at least zero, the negative bar at most zero, one of the two is
    zero and they add up to the CSS value; where the CSS cell is missing both
    bars are missing. *)
Theorem chart_bars_split (inp : Inputs) (df : loc) (σ : Store) (d : DataFrame) :
  σ !! df = Some d ->
  reaches_floor d ->
  has_columns d inp ->
  efficiency_pct inp <> 0 ->
  exists pg σ' fc css line positive negative,
    page inp df σ = (Ok pg, σ') /\
    σ' !! df_filtered (page_outputs pg) = Some fc /\
    getitem fc "CSS" = Ok css /\
    page_figure pg = [line; positive; negative] /\
    trace_kind line = Scatter /\ trace_kind positive = Bar /\ trace_kind negative = Bar /\
    trace_x line = index fc /\ trace_x positive = index fc /\ trace_x negative = index fc /\
    trace_y line = css /\
    length (trace_y positive) = length css /\
    length (trace_y negative) = length css /\
    forall i (v : value), css !! i = Some v ->
      match v with
      | Some x =>
          exists p n,
            trace_y positive !! i = Some (Some p) /\
            trace_y negative !! i = Some (Some n) /\
            (p + n == x)%Q /\ (0 <= p)%Q /\ (n <= 0)%Q /\ (p == 0 \/ n == 0)%Q
      | None =>
          trace_y positive !! i = Some None /\ trace_y negative !! i = Some None
      end.
Proof.
  intros Hdf Hfloor Hcols Heff.
  destruct (page_succeeds _ _ _ _ Hdf Hfloor Hcols Heff)
    as (pg & σ' & s & e & css & picked & Hrun & _ & _ & _ & _ & Hf & Hfig & _).
  eexists pg, σ', _, css, _, _, _. split; [exact Hrun|]. split; [exact Hf|].
  split; [apply getitem_setitem|]. split; [exact Hfig|]. simpl.
  unfold series_clip_lower, series_clip_upper. rewrite !length_map.
  repeat split; try reflexivity.
  intros i v Hi.
  destruct v as [x|]; rewrite !lookup_map, Hi; simpl; [|done].
  destruct (clip_split x) as (H1 & H2 & H3 & H4). eauto 10.
Qed.

(** X12.  Drawing the chart and building the table changes nothing else: the
    whole page raises what the run without them raises, with the same store;
    otherwise it returns the same outputs, and its store is that run's store
    with one new object, the table. *)
Theorem page_extends_script (inp : Inputs) (df : loc) (σ : Store) :
  match script inp df σ with
  | (Err err, σs) => page inp df σ = (Err err, σs)
  | (Ok o, σs) =>
      exists pg t,
        page inp df σ = (Ok pg, <[page_table pg := t]> σs) /\
        page_outputs pg = o /\
        (page_table pg ∉ dom σs)
  end.
Proof.
  destruct (σ !! df) as [d|] eqn:Hdf;
    [|by rewrite (script_dangling _ _ _ Hdf), (page_dangling _ _ _ Hdf)].
  destruct (selected_range d inp) as [[s e]|err] eqn:Hsel;
    [|by rewrite (script_no_range _ _ _ _ _ Hdf Hsel), (page_no_range _ _ _ _ _ Hdf Hsel)].
  pose proof (page_unfold inp df σ d s e Hdf Hsel) as Hpage.
  destruct (css_column (filter_dates d s e) inp) as [css|err].
  - destruct Hpage as (o & σs & picked & -> & _ & ->).
    exists (mkPage o (figure_of (filter_dates d s e) css) (fresh (dom σs))),
           (mkDF (index (filter_dates d s e)) picked).
    simpl. split; [reflexivity|]. split; [done|]. apply is_fresh.
  - by destruct Hpage as (σs & -> & -> & _).
Qed.

Lemma table_columns_elem inp n :
  n ∈ table_columns inp <->
  n ∈ ({[country_column (country inp); gas_column (gas_index inp);
         "EUA Prices"; "CSS"]} : gset string).
Proof.
  unfold table_columns.
  rewrite !elem_of_cons, elem_of_nil, !elem_of_union, !elem_of_singleton. tauto.
Qed.

(** X13.  After a run, the raw-data table is a new object, distinct from
    [df_filtered] and from everything the store held; it has the index of
    [df_filtered] and exactly the four columns market, gas, EUA Prices and
    CSS, each equal to the column of [df_filtered]. *)
Theorem raw_data_table_contents (inp : Inputs) (df : loc) (σ : Store) (d : DataFrame) :
  σ !! df = Some d ->
  reaches_floor d ->
  has_columns d inp ->
  efficiency_pct inp <> 0 ->
  exists pg σ' fc t,
    page inp df σ = (Ok pg, σ') /\
    σ' !! df_filtered (page_outputs pg) = Some fc /\
    σ' !! page_table pg = Some t /\
    (page_table pg ∉ dom σ) /\
    page_table pg <> df_filtered (page_outputs pg) /\
    index t = index fc /\
    dom (columns t) =
      {[country_column (country inp); gas_column (gas_index inp); "EUA Prices"; "CSS"]} /\
    forall name, name ∈ dom (columns t) -> columns t !! name = columns fc !! name.
Proof.
  intros Hdf Hfloor Hcols Heff.
  destruct (page_succeeds _ _ _ _ Hdf Hfloor Hcols Heff)
    as (pg & σ' & s & e & css & picked & Hrun & _ & Hcss & _ & _ & Hf & _ & Hnew & Hne
        & Ht & Hlook & _).
  eexists pg, σ', _, _. split; [exact Hrun|]. split; [exact Hf|]. split; [exact Ht|].
  split; [done|]. split; [done|]. split; [done|]. simpl.
  pose proof (table_columns_present _ _ _ Hcss) as Hall.
  rewrite List.Forall_forall in Hall.
  assert (Hdom : dom picked =
                 ({[country_column (country inp); gas_column (gas_index inp);
                    "EUA Prices"; "CSS"]} : gset string)).
  { apply set_eq. intros n. rewrite elem_of_dom, Hlook, <- table_columns_elem.
    destruct (decide (n ∈ table_columns inp)) as [Hin|Hnin].
    - split; [done|]. intros _. apply Hall. by apply list_elem_of_In.
    - split; [by intros [? ?]|done]. }
  split; [exact Hdom|].
  intros name Hin. rewrite Hlook. rewrite Hdom, <- table_columns_elem in Hin.
  by rewrite decide_True.
Qed.

(** *** More on the aggregates *)

Lemma page_ok_facts inp df (σ σ' : Store) pg :
  page inp df σ = (Ok pg, σ') ->
  exists d s e css,
    σ !! df = Some d /\
    selected_range d inp = Ok (s, e) /\
    css_column (filter_dates d s e) inp = Ok css /\
    σ' !! df_filtered (page_outputs pg) = Some (setitem (filter_dates d s e) "CSS" css) /\
    avg_css (page_outputs pg) = round2 (series_mean css) /\
    peak_css (page_outputs pg) = round2 (series_mean (peak_of (filter_dates d s e) css)) /\
    avg_text (page_outputs pg) = fmt (avg_css (page_outputs pg)) /\
    peak_text (page_outputs pg) = fmt (peak_css (page_outputs pg)) /\
    page_figure pg = figure_of (filter_dates d s e) css.
Proof.
  intros Hrun.
  destruct (σ !! df) as [d|] eqn:Hdf; [|by rewrite (page_dangling _ _ _ Hdf) in Hrun].
  destruct (selected_range d inp) as [[s e]|err] eqn:Hsel;
    [|by rewrite (page_no_range _ _ _ _ _ Hdf Hsel) in Hrun].
  pose proof (page_unfold inp df σ d s e Hdf Hsel) as Hpage.
  destruct (css_column (filter_dates d s e) inp) as [css|err] eqn:Hcss.
  - destruct Hpage as (o & σs & picked & Hscript & Hlook & Hpage).
    destruct (script_run _ _ _ _ _ _ _ Hdf Hsel Hcss)
      as (o' & σs' & Hrun' & Hnew & Hf & Havg & Hpeak & Hat & Hpt & _).
    rewrite Hscript in Hrun'. injection Hrun' as <- <-.
    rewrite Hpage in Hrun. injection Hrun as <- <-. simpl.
    assert (Hne : fresh (dom σs) <> df_filtered o).
    { intros Heq. apply (is_fresh (dom σs)). rewrite Heq. apply elem_of_dom. by rewrite Hf. }
    exists d, s, e, css. rewrite lookup_insert_ne by done. by repeat split.
  - destruct Hpage as (σs & _ & Hpage & _). by rewrite Hpage in Hrun.
Qed.

(** X14.  When every timestamp of the filtered frame is inside the peak
    window, the peak average and its text equal the overall average and its
    text. *)
Theorem all_peak_same_average
    (inp : Inputs) (df : loc) (σ σ' : Store) (pg : Page) (fc : DataFrame) :
  page inp df σ = (Ok pg, σ') ->
  σ' !! df_filtered (page_outputs pg) = Some fc ->
  Forall (fun t => in_peak t = true) (index fc) ->
  peak_css (page_outputs pg) = avg_css (page_outputs pg) /\
  peak_text (page_outputs pg) = avg_text (page_outputs pg).
Proof.
  intros Hrun Hfc Hall.
  destruct (page_ok_facts _ _ _ _ _ Hrun)
    as (d & s & e & css & _ & _ & Hcss & Hf & Havg & Hpeak & Hat & Hpt & _).
  rewrite Hf in Hfc. injection Hfc as <-. simpl in Hall.
  assert (Heq : peak_of (filter_dates d s e) css = css).
  { unfold peak_of. rewrite time_mask_peak. apply select_all_true.
    - apply List.Forall_map. exact Hall.
    - rewrite length_map. apply css_column_length with inp; [apply filter_dates_bounded|done]. }
  assert (Hp : peak_css (page_outputs pg) = avg_css (page_outputs pg))
    by (by rewrite Hpeak, Havg, Heq).
  split; [done|]. by rewrite Hpt, Hat, Hp.
Qed.

Lemma append_dot_not_nan (s1 s2 : string) : s1 +:+ "." +:+ s2 <> "nan".
Proof.
  destruct s1 as [|c1 [|c2 [|c3 [|c4 s1]]]]; simpl; intros H; discriminate H.
Qed.

Lemma fmt_not_nan (q : Q) : fmt (Some q) <> "nan".
Proof.
  unfold fmt, fmt_hundredths.
  destruct (Qfloor (q * 100) <? 0).
  - simpl. discriminate.
  - apply (append_dot_not_nan (pretty _)).
Qed.

Lemma fmt_nan_iff (v : value) : fmt v = "nan" <-> v = None.
Proof.
  destruct v as [q|]; split; try done. intros H. by apply fmt_not_nan in H.
Qed.

Lemma round2_mean_none (s : list value) :
  round2 (series_mean s) = None <-> present s = [].
Proof.
  unfold series_mean. destruct (present s); simpl; split; done.
Qed.

(** X16.  The page shows the text nan for an average exactly when there is no
    observation to average: no CSS observation at all for the overall
    average, none at a timestamp of the peak window for the peak average. *)
Theorem nan_shown_iff_no_observation
    (inp : Inputs) (df : loc) (σ σ' : Store) (pg : Page) (fc : DataFrame)
    (css : list value) :
  page inp df σ = (Ok pg, σ') ->
  σ' !! df_filtered (page_outputs pg) = Some fc ->
  getitem fc "CSS" = Ok css ->
  (avg_text (page_outputs pg) = "nan" <-> present css = []) /\
  (peak_text (page_outputs pg) = "nan" <->
   present (map snd (List.filter (fun p => in_peak p.1) (zip (index fc) css))) = []).
Proof.
  intros Hrun Hfc Hget.
  destruct (page_ok_facts _ _ _ _ _ Hrun)
    as (d & s & e & css' & _ & _ & Hcss & Hf & Havg & Hpeak & Hat & Hpt & _).
  rewrite Hf in Hfc. injection Hfc as <-.
  rewrite getitem_setitem in Hget. injection Hget as ->.
  change (index (setitem _ _ _)) with (index (filter_dates d s e)).
  rewrite <- peak_of_filter, Hat, Hpt, !fmt_nan_iff, Havg, Hpeak, !round2_mean_none. done.
Qed.

(** *** Sensitivities of the CSS column *)

Lemma Qdiv_mono (x y d : Q) : (0 < d)%Q -> (x <= y)%Q -> (x / d <= y / d)%Q.
Proof.
  intros Hd Hxy. unfold Qdiv. apply Qmult_le_compat_r; [done|].
  apply Qinv_le_0_compat. lra.
Qed.

Lemma Qdiv_antitone (x d1 d2 : Q) :
  (0 <= x)%Q -> (0 < d1)%Q -> (d1 <= d2)%Q -> (x / d2 <= x / d1)%Q.
Proof.
  intros Hx Hd1 Hd.
  assert (Hd2 : (0 < d2)%Q) by lra.
  assert (Ha : (0 <= x / d2)%Q) by (apply Qle_shift_div_l; [done|lra]).
  apply Qle_shift_div_l; [done|].
  assert (Heq : (x / d2 * d2 == x)%Q) by (field; lra).
  assert (Hle : (d1 * (x / d2) <= d2 * (x / d2))%Q) by (by apply Qmult_le_compat_r).
  lra.
Qed.

Lemma efficiency_positive inp : 0 < efficiency_pct inp -> (0 < efficiency inp)%Q.
Proof.
  intros Hpct. unfold efficiency, efficiency_of_pct.
  apply Qlt_shift_div_l; [reflexivity|]. change (0 * 100)%Q with (inject_Z 0).
  by rewrite <- Zlt_Qlt.
Qed.

Lemma efficiency_of_pct_mono p1 p2 :
  p1 <= p2 -> (efficiency_of_pct p1 <= efficiency_of_pct p2)%Q.
Proof.
  intros Hp. unfold efficiency_of_pct. apply Qdiv_mono; [reflexivity|]. by rewrite <- Zle_Qle.
Qed.

Lemma cell_le_refl (v : value) : cell_le v v.
Proof. destruct v; constructor. apply Qle_refl. Qed.

Lemma series_le_refl (s : list value) : Forall2 cell_le s s.
Proof. induction s; constructor; [apply cell_le_refl|done]. Qed.

Lemma series_sub_mono (a1 a2 b1 b2 : list value) :
  Forall2 cell_le a1 a2 -> Forall2 cell_le b2 b1 ->
  Forall2 cell_le (series_sub a1 b1) (series_sub a2 b2).
Proof.
  intros Ha. revert b1 b2. unfold series_sub.
  induction Ha as [|x y a1 a2 Hxy _ IH]; intros b1 b2 Hb; [by destruct Hb|].
  destruct Hb as [|u v b2 b1 Huv Hb]; simpl; constructor; [|by apply IH].
  destruct Hxy, Huv; unfold cell_sub; constructor. lra.
Qed.

Lemma series_div_scalar_mono (a b : list value) (d : Q) :
  (0 < d)%Q -> Forall2 cell_le a b ->
  Forall2 cell_le (series_div_scalar a d) (series_div_scalar b d).
Proof.
  intros Hd H. unfold series_div_scalar.
  induction H as [|x y a b Hxy _ IH]; simpl; constructor; [|done].
  destruct Hxy; unfold cell_div; [|constructor].
  destruct (Qeq_bool d 0); constructor. by apply Qdiv_mono.
Qed.

Lemma series_div_scalar_antitone (a : list value) (d1 d2 : Q) :
  (0 < d1)%Q -> (d1 <= d2)%Q -> cells_nonneg a ->
  Forall2 cell_le (series_div_scalar a d2) (series_div_scalar a d1).
Proof.
  intros Hd1 Hd H. unfold series_div_scalar, cells_nonneg in *.
  induction H as [|v a Hv _ IH]; simpl; constructor; [|done].
  destruct v as [x|]; unfold cell_div; [|constructor].
  assert (E1 : Qeq_bool d1 0 = false).
  { apply not_true_is_false. intros E. apply Qeq_bool_eq in E. lra. }
  assert (E2 : Qeq_bool d2 0 = false).
  { apply not_true_is_false. intros E. apply Qeq_bool_eq in E. lra. }
  rewrite E1, E2. constructor. apply Qdiv_antitone; auto.
Qed.

Lemma series_mul_scalar_mono_l (a b : list value) (k : Q) :
  (0 <= k)%Q -> Forall2 cell_le a b ->
  Forall2 cell_le (series_mul_scalar a k) (series_mul_scalar b k).
Proof.
  intros Hk H. unfold series_mul_scalar.
  induction H as [|x y a b Hxy _ IH]; simpl; constructor; [|done].
  destruct Hxy; unfold cell_mul; constructor. by apply Qmult_le_compat_r.
Qed.

Lemma series_mul_scalar_mono_r (a : list value) (k1 k2 : Q) :
  (k1 <= k2)%Q -> cells_nonneg a ->
  Forall2 cell_le (series_mul_scalar a k1) (series_mul_scalar a k2).
Proof.
  intros Hk H. unfold series_mul_scalar, cells_nonneg in *.
  induction H as [|v a Hv _ IH]; simpl; constructor; [|done].
  destruct v as [x|]; unfold cell_mul; constructor.
  rewrite (Qmult_comm x k1), (Qmult_comm x k2). apply Qmult_le_compat_r; auto.
Qed.

Lemma gas_not_carbon g : gas_column g <> "EUA Prices".
Proof. by destruct g. Qed.

(** X17.  With a positive efficiency, raising gas prices pointwise, all else
    equal, lowers or keeps the CSS column pointwise. *)
Theorem css_antitone_in_gas (f : DataFrame) (inp : Inputs) (g1 g2 a1 : list value) :
  0 < efficiency_pct inp ->
  Forall2 cell_le g1 g2 ->
  css_column (setitem f (gas_column (gas_index inp)) g1) inp = Ok a1 ->
  exists a2,
    css_column (setitem f (gas_column (gas_index inp)) g2) inp = Ok a2 /\
    Forall2 cell_le a2 a1.
Proof.
  intros Hpct Hle Ha.
  destruct (css_column_inv _ _ _ Ha) as (market & gas & carbon & Em & Eg & Ec & Heff & ->).
  rewrite getitem_setitem in Eg. injection Eg as <-.
  assert (Hmg : gas_column (gas_index inp) <> country_column (country inp))
    by (intros E; by apply (country_not_gas (country inp) (gas_index inp))).
  rewrite getitem_setitem_ne in Em by done.
  rewrite getitem_setitem_ne in Ec by apply gas_not_carbon.
  eexists. split.
  - unfold css_column, float_div.
    rewrite getitem_setitem, !getitem_setitem_ne by first [done | apply gas_not_carbon].
    rewrite Em. simpl. rewrite Ec. simpl. rewrite Heff. reflexivity.
  - apply series_sub_scalar_le, series_sub_mono; [|apply series_le_refl].
    apply series_sub_mono; [apply series_le_refl|].
    apply series_div_scalar_mono; [by apply efficiency_positive|done].
Qed.

(** X18.  With a positive efficiency and a non-negative emission factor,
    raising carbon prices pointwise, all else equal, lowers or keeps the CSS
    column pointwise. *)
Theorem css_antitone_in_carbon (f : DataFrame) (inp : Inputs) (c1 c2 a1 : list value) :
  0 < efficiency_pct inp ->
  (0 <= emission_factor_th inp)%Q ->
  Forall2 cell_le c1 c2 ->
  css_column (setitem f "EUA Prices" c1) inp = Ok a1 ->
  exists a2,
    css_column (setitem f "EUA Prices" c2) inp = Ok a2 /\
    Forall2 cell_le a2 a1.
Proof.
  intros Hpct Hef Hle Ha.
  destruct (css_column_inv _ _ _ Ha) as (market & gas & carbon & Em & Eg & Ec & Heff & ->).
  rewrite getitem_setitem in Ec. injection Ec as <-.
  assert (Hcm : "EUA Prices" <> country_column (country inp))
    by (intros E; by apply (country_not_carbon (country inp))).
  assert (Hcg : "EUA Prices" <> gas_column (gas_index inp))
    by (intros E; by apply (gas_not_carbon (gas_index inp))).
  rewrite getitem_setitem_ne in Em by done.
  rewrite getitem_setitem_ne in Eg by done.
  eexists. split.
  - unfold css_column, float_div.
    rewrite getitem_setitem, !getitem_setitem_ne by done.
    rewrite Em, Eg. simpl. rewrite Heff. reflexivity.
  - apply series_sub_scalar_le, series_sub_mono; [apply series_le_refl|].
    apply series_mul_scalar_mono_l; [|done].
    apply Qle_shift_div_l; [by apply efficiency_positive|lra].
Qed.

(** X19.  With non-negative gas and carbon prices and a non-negative emission
    factor, a higher efficiency, all else equal, raises or keeps the CSS
    column pointwise. *)
Theorem css_monotone_in_efficiency
    (f : DataFrame) (inp : Inputs) (pct : Z) (gas carbon a1 : list value) :
  0 < efficiency_pct inp <= pct ->
  (0 <= emission_factor_th inp)%Q ->
  getitem f (gas_column (gas_index inp)) = Ok gas ->
  cells_nonneg gas ->
  getitem f "EUA Prices" = Ok carbon ->
  cells_nonneg carbon ->
  css_column f inp = Ok a1 ->
  exists a2,
    css_column f (with_efficiency_pct inp pct) = Ok a2 /\
    Forall2 cell_le a1 a2.
Proof.
  intros [Hpos Hle] Hef Hg Hgn Hc Hcn Ha.
  destruct (css_column_inv _ _ _ Ha) as (market & gas' & carbon' & Em & Eg & Ec & Heff & ->).
  rewrite Hg in Eg. injection Eg as <-. rewrite Hc in Ec. injection Ec as <-.
  pose proof (efficiency_positive inp Hpos) as He1.
  assert (He : (efficiency inp <= efficiency (with_efficiency_pct inp pct))%Q)
    by (by apply efficiency_of_pct_mono).
  eexists. split.
  - apply css_column_ok; simpl; eauto. lia.
  - change (emission_factor_th (with_efficiency_pct inp pct)) with (emission_factor_th inp).
    change (variable_cost (with_efficiency_pct inp pct)) with (variable_cost inp).
    apply series_sub_scalar_le, series_sub_mono.
    + apply series_sub_mono; [apply series_le_refl|].
      by apply series_div_scalar_antitone.
    + apply series_mul_scalar_mono_r; [|done]. by apply Qdiv_antitone.
Qed.

(** X20.  With a positive efficiency and non-negative carbon prices, a higher
    emission factor, all else equal, lowers or keeps the CSS column
    pointwise. *)
Theorem css_antitone_in_emission_factor
    (f : DataFrame) (inp : Inputs) (ef : Q) (carbon a1 : list value) :
  0 < efficiency_pct inp ->
  (emission_factor_th inp <= ef)%Q ->
  getitem f "EUA Prices" = Ok carbon ->
  cells_nonneg carbon ->
  css_column f inp = Ok a1 ->
  exists a2,
    css_column f (with_emission_factor inp ef) = Ok a2 /\
    Forall2 cell_le a2 a1.
Proof.
  intros Hpos Hle Hc Hcn Ha.
  destruct (css_column_inv _ _ _ Ha) as (market & gas & carbon' & Em & Eg & Ec & Heff & ->).
  rewrite Hc in Ec. injection Ec as <-.
  eexists. split.
  - apply css_column_ok; simpl; eauto. lia.
  - change (efficiency (with_emission_factor inp ef)) with (efficiency inp).
    change (variable_cost (with_emission_factor inp ef)) with (variable_cost inp).
    apply series_sub_scalar_le, series_sub_mono; [apply series_le_refl|].
    apply series_mul_scalar_mono_r; [|done].
    apply Qdiv_mono; [by apply efficiency_positive|done].
Qed.

(** *** Recomputation *)



Lemma page_shown inp df (σ : Store) d :
  σ !! df = Some d -> shown (page inp df σ).1 = shown_for d inp.
Proof.
  intros Hdf. unfold shown_for.
  destruct (selected_range d inp) as [[s e]|err] eqn:Hsel;
    [|by rewrite (page_no_range _ _ _ _ _ Hdf Hsel)].
  pose proof (page_unfold inp df σ d s e Hdf Hsel) as Hpage. simpl.
  destruct (css_column (filter_dates d s e) inp) as [css|err] eqn:Hcss.
  - destruct Hpage as (o & σs & picked & Hscript & _ & ->).
    destruct (script_run _ _ _ _ _ _ _ Hdf Hsel Hcss)
      as (o' & σs' & Hrun & _ & _ & Havg & Hpeak & Hat & Hpt & _).
    rewrite Hscript in Hrun. injection Hrun as <- <-. simpl.
    by rewrite Hat, Hpt, Havg, Hpeak.
  - by destruct Hpage as (σs & _ & -> & _).
Qed.

Lemma page_agree inp df (σ : Store) : agree σ (page inp df σ).2.
Proof.
  destruct (σ !! df) as [d|] eqn:Hdf;
    [|rewrite (page_dangling _ _ _ Hdf); apply agree_refl].
  destruct (selected_range d inp) as [[s e]|err] eqn:Hsel;
    [|rewrite (page_no_range _ _ _ _ _ Hdf Hsel); apply agree_refl].
  pose proof (page_unfold inp df σ d s e Hdf Hsel) as Hpage.
  destruct (css_column (filter_dates d s e) inp) as [css|err] eqn:Hcss.
  - destruct Hpage as (o & σs & picked & Hscript & _ & ->).
    destruct (script_run _ _ _ _ _ _ _ Hdf Hsel Hcss) as (o' & σs' & Hrun & H).
    rewrite Hscript in Hrun. injection Hrun as <- <-.
    assert (Hag : agree σ σs) by tauto. simpl.
    apply agree_insert; [done|by apply agree_fresh].
  - by destruct Hpage as (σs & _ & -> & Hag).
Qed.

(** X21.  A run started on the store an earlier run left, whatever inputs that
    earlier run had, shows the same aggregates, texts and figure, or raises
    the same exception, as it would on the original store; the name [df]
    still denotes the same dataset. *)
Theorem rerun_shows_the_same (inp inp' : Inputs) (df : loc) (σ : Store) :
  shown (page inp' df (page inp df σ).2).1 = shown (page inp' df σ).1 /\
  (page inp df σ).2 !! df = σ !! df.
Proof.
  destruct (σ !! df) as [d|] eqn:Hdf.
  - assert (Hd : (page inp df σ).2 !! df = Some d).
    { rewrite <- Hdf. apply page_agree. apply elem_of_dom. by rewrite Hdf. }
    split; [|done]. by rewrite (page_shown _ _ _ _ Hd), (page_shown _ _ _ _ Hdf).
  - rewrite (page_dangling inp _ _ Hdf). simpl. by rewrite Hdf.
Qed.

(** *** The properties above on the sample data *)




Lemma day_has_columns : has_columns day_frame sample_inputs.
Proof. repeat split; by eexists. Qed.

Lemma day_reaches_floor : reaches_floor day_frame.
Proof.
  exists (stamp 2025 4 1 8 0). split; [simpl; tauto|]. vm_compute. discriminate.
Qed.

Lemma sample_gas : getitem sample_frame "PEG" =
                   Ok [Some 30%Q; Some 30%Q; Some 30%Q; Some 30%Q; Some 30%Q].
Proof. reflexivity. Qed.

Lemma sample_carbon : getitem sample_frame "EUA Prices" =
                      Ok [Some 80%Q; Some 80%Q; Some 80%Q; Some 80%Q; Some 80%Q].
Proof. reflexivity. Qed.

Lemma constant_cells_nonneg (x : Q) (n : nat) :
  (0 <= x)%Q -> cells_nonneg (repeat (Some x) n).
Proof.
  intros Hx. unfold cells_nonneg. induction n; simpl; constructor; [|done].
  by intros y [= <-].
Qed.

Lemma filter_dates_no_match_witness :
  Forall (fun t => date_of t < 20200 \/ 20100 < date_of t) (index sample_frame) /\
  index (filter_dates sample_frame 20200 20100) = [] /\
  forall name col,
    columns (filter_dates sample_frame 20200 20100) !! name = Some col -> col = [].
Proof.
  assert (H : Forall (fun t => date_of t < 20200 \/ 20100 < date_of t) (index sample_frame)).
  { repeat constructor; left; vm_compute; reflexivity. }
  split; [exact H|]. exact (filter_dates_no_match sample_frame 20200 20100 H).
Defined.

Lemma filter_dates_keeps_order_witness :
  StronglySorted Z.lt (index sample_frame) /\
  StronglySorted Z.lt (index (filter_dates sample_frame 20179 20180)).
Proof.
  assert (H : StronglySorted Z.lt (index sample_frame)).
  { repeat constructor; vm_compute; reflexivity. }
  split; [exact H|].
  exact (proj2 (proj2 (filter_dates_keeps_order sample_frame 20179 20180)) H).
Defined.

Lemma filter_dates_shape_witness :
  well_formed sample_frame /\
  well_formed (filter_dates sample_frame 20179 20180) /\
  dom (columns (filter_dates sample_frame 20179 20180)) = dom (columns sample_frame).
Proof.
  split; [apply sample_well_formed|].
  destruct (filter_dates_shape sample_frame 20179 20180 sample_well_formed) as (H1 & H2 & _).
  split; [exact H1|exact H2].
Defined.




Lemma page_returns_only_if_witness :
  exists pg σ',
    page sample_inputs 1%positive (store_of sample_frame) = (Ok pg, σ') /\
    exists d,
      store_of sample_frame !! 1%positive = Some d /\
      reaches_floor d /\ has_columns d sample_inputs /\ efficiency_pct sample_inputs <> 0.
Proof.
  destruct (page_succeeds sample_inputs 1%positive (store_of sample_frame) sample_frame
              (store_of_lookup sample_frame) sample_reaches_floor sample_has_columns)
    as (pg & σ' & _ & _ & _ & _ & Hrun & _); [discriminate|].
  exists pg, σ'. split; [exact Hrun|].
  exact (page_returns_only_if sample_inputs 1%positive _ _ pg Hrun).
Defined.

Lemma filtered_frame_shape_witness :
  store_of sample_frame !! 1%positive = Some sample_frame /\
  reaches_floor sample_frame /\
  well_formed sample_frame /\
  has_columns sample_frame sample_inputs /\
  efficiency_pct sample_inputs <> 0 /\
  exists pg σ' fc,
    page sample_inputs 1%positive (store_of sample_frame) = (Ok pg, σ') /\
    σ' !! df_filtered (page_outputs pg) = Some fc /\
    well_formed fc /\
    dom (columns fc) = {["CSS"]} ∪ dom (columns sample_frame).
Proof.
  split; [apply store_of_lookup|]. split; [apply sample_reaches_floor|].
  split; [apply sample_well_formed|].
  split; [apply sample_has_columns|]. split; [discriminate|].
  destruct (filtered_frame_shape sample_inputs 1%positive (store_of sample_frame) sample_frame)
    as (pg & σ' & s & e & fc & Hrun & _ & Hf & Hwf & _ & Hdom & _).
  - apply store_of_lookup.
  - apply sample_reaches_floor.
  - apply sample_well_formed.
  - apply sample_has_columns.
  - discriminate.
  - exists pg, σ', fc. split; [exact Hrun|]. split; [exact Hf|]. split; [exact Hwf|exact Hdom].
Defined.

Lemma chart_bars_split_witness :
  store_of sample_frame !! 1%positive = Some sample_frame /\
  reaches_floor sample_frame /\
  has_columns sample_frame sample_inputs /\
  efficiency_pct sample_inputs <> 0 /\
  exists pg σ' line positive negative,
    page sample_inputs 1%positive (store_of sample_frame) = (Ok pg, σ') /\
    page_figure pg = [line; positive; negative] /\
    trace_x positive = trace_x line /\ trace_x negative = trace_x line /\
    length (trace_y positive) = length (trace_y line) /\
    length (trace_y negative) = length (trace_y line).
Proof.
  split; [apply store_of_lookup|]. split; [apply sample_reaches_floor|].
  split; [apply sample_has_columns|]. split; [discriminate|].
  destruct (chart_bars_split sample_inputs 1%positive (store_of sample_frame) sample_frame)
    as (pg & σ' & fc & css & line & positive & negative & Hrun & _ & _ & Hfig & _ & _ & _
        & Hx1 & Hx2 & Hx3 & Hy & Hl1 & Hl2 & _).
  - apply store_of_lookup.
  - apply sample_reaches_floor.
  - apply sample_has_columns.
  - discriminate.
  - exists pg, σ', line, positive, negative. split; [exact Hrun|]. split; [exact Hfig|].
    rewrite Hx1, Hx2, Hx3, Hy, Hl1, Hl2. repeat split; reflexivity.
Defined.

Lemma raw_data_table_contents_witness :
  store_of sample_frame !! 1%positive = Some sample_frame /\
  reaches_floor sample_frame /\
  has_columns sample_frame sample_inputs /\
  efficiency_pct sample_inputs <> 0 /\
  exists pg σ' fc t,
    page sample_inputs 1%positive (store_of sample_frame) = (Ok pg, σ') /\
    σ' !! df_filtered (page_outputs pg) = Some fc /\
    σ' !! page_table pg = Some t /\
    index t = index fc /\
    dom (columns t) = {["FR"; "PEG"; "EUA Prices"; "CSS"]}.
Proof.
  split; [apply store_of_lookup|]. split; [apply sample_reaches_floor|].
  split; [apply sample_has_columns|]. split; [discriminate|].
  destruct (raw_data_table_contents sample_inputs 1%positive (store_of sample_frame)
              sample_frame)
    as (pg & σ' & fc & t & Hrun & Hf & Ht & _ & _ & Hidx & Hdom & _).
  - apply store_of_lookup.
  - apply sample_reaches_floor.
  - apply sample_has_columns.
  - discriminate.
  - exists pg, σ', fc, t. split; [exact Hrun|]. split; [exact Hf|]. split; [exact Ht|].
    split; [exact Hidx|exact Hdom].
Defined.

Lemma all_peak_same_average_witness :
  exists pg σ' fc,
    page sample_inputs 1%positive (store_of day_frame) = (Ok pg, σ') /\
    σ' !! df_filtered (page_outputs pg) = Some fc /\
    Forall (fun t => in_peak t = true) (index fc) /\
    peak_css (page_outputs pg) = avg_css (page_outputs pg) /\
    peak_text (page_outputs pg) = avg_text (page_outputs pg).
Proof.
  destruct (page_succeeds sample_inputs 1%positive (store_of day_frame) day_frame
              (store_of_lookup day_frame) day_reaches_floor day_has_columns)
    as (pg & σ' & s & e & css & picked & Hrun & Hsel & _ & _ & _ & Hf & _);
    [discriminate|].
  vm_compute in Hsel. injection Hsel as <- <-.
  assert (Hall : Forall (fun t => in_peak t = true)
                   (index (setitem (filter_dates day_frame 20179 20179) "CSS" css))).
  { repeat constructor. }
  exists pg, σ', (setitem (filter_dates day_frame 20179 20179) "CSS" css).
  split; [exact Hrun|]. split; [exact Hf|]. split; [exact Hall|].
  exact (all_peak_same_average sample_inputs 1%positive _ _ pg _ Hrun Hf Hall).
Defined.

Lemma nan_shown_iff_no_observation_witness :
  exists pg σ' fc css,
    page sample_inputs 1%positive (store_of sample_frame) = (Ok pg, σ') /\
    σ' !! df_filtered (page_outputs pg) = Some fc /\
    getitem fc "CSS" = Ok css /\
    (avg_text (page_outputs pg) = "nan" <-> present css = []).
Proof.
  destruct (page_succeeds sample_inputs 1%positive (store_of sample_frame) sample_frame
              (store_of_lookup sample_frame) sample_reaches_floor sample_has_columns)
    as (pg & σ' & s & e & css & picked & Hrun & _ & _ & _ & _ & Hf & _);
    [discriminate|].
  assert (Hget : getitem (setitem (filter_dates sample_frame s e) "CSS" css) "CSS" = Ok css)
    by apply getitem_setitem.
  exists pg, σ', (setitem (filter_dates sample_frame s e) "CSS" css), css.
  split; [exact Hrun|]. split; [exact Hf|]. split; [exact Hget|].
  exact (proj1 (nan_shown_iff_no_observation sample_inputs 1%positive _ _ pg _ css
                  Hrun Hf Hget)).
Defined.

Lemma css_antitone_in_gas_witness :
  let g1 := repeat (Some 30%Q) 5 in
  let g2 := repeat (Some 35%Q) 5 in
  0 < efficiency_pct sample_inputs /\
  Forall2 cell_le g1 g2 /\
  exists a1,
    css_column (setitem sample_frame "PEG" g1) sample_inputs = Ok a1 /\
    exists a2,
      css_column (setitem sample_frame "PEG" g2) sample_inputs = Ok a2 /\
      Forall2 cell_le a2 a1.
Proof.
  intros g1 g2.
  assert (Hpct : 0 < efficiency_pct sample_inputs) by reflexivity.
  assert (Hle : Forall2 cell_le g1 g2).
  { repeat (constructor; try (unfold Qle; simpl; lia)). }
  split; [exact Hpct|]. split; [exact Hle|].
  eexists. split; [vm_compute; reflexivity|].
  apply (css_antitone_in_gas sample_frame sample_inputs g1 g2); [exact Hpct|exact Hle|].
  vm_compute; reflexivity.
Defined.

Lemma css_antitone_in_carbon_witness :
  let c1 := repeat (Some 80%Q) 5 in
  let c2 := repeat (Some 85%Q) 5 in
  0 < efficiency_pct sample_inputs /\
  (0 <= emission_factor_th sample_inputs)%Q /\
  Forall2 cell_le c1 c2 /\
  exists a1,
    css_column (setitem sample_frame "EUA Prices" c1) sample_inputs = Ok a1 /\
    exists a2,
      css_column (setitem sample_frame "EUA Prices" c2) sample_inputs = Ok a2 /\
      Forall2 cell_le a2 a1.
Proof.
  intros c1 c2.
  assert (Hpct : 0 < efficiency_pct sample_inputs) by reflexivity.
  assert (Hef : (0 <= emission_factor_th sample_inputs)%Q) by (unfold Qle; simpl; lia).
  assert (Hle : Forall2 cell_le c1 c2).
  { repeat (constructor; try (unfold Qle; simpl; lia)). }
  split; [exact Hpct|]. split; [exact Hef|]. split; [exact Hle|].
  eexists. split; [vm_compute; reflexivity|].
  apply (css_antitone_in_carbon sample_frame sample_inputs c1 c2);
    [exact Hpct|exact Hef|exact Hle|].
  vm_compute; reflexivity.
Defined.

Lemma css_monotone_in_efficiency_witness :
  0 < efficiency_pct sample_inputs <= 60 /\
  (0 <= emission_factor_th sample_inputs)%Q /\
  cells_nonneg (repeat (Some 30%Q) 5) /\
  cells_nonneg (repeat (Some 80%Q) 5) /\
  exists a1,
    css_column sample_frame sample_inputs = Ok a1 /\
    exists a2,
      css_column sample_frame (with_efficiency_pct sample_inputs 60) = Ok a2 /\
      Forall2 cell_le a1 a2.
Proof.
  assert (Hpct : 0 < efficiency_pct sample_inputs <= 60) by (simpl; lia).
  assert (Hef : (0 <= emission_factor_th sample_inputs)%Q) by (unfold Qle; simpl; lia).
  assert (Hg : cells_nonneg (repeat (Some 30%Q) 5))
    by (apply constant_cells_nonneg; unfold Qle; simpl; lia).
  assert (Hc : cells_nonneg (repeat (Some 80%Q) 5))
    by (apply constant_cells_nonneg; unfold Qle; simpl; lia).
  split; [exact Hpct|]. split; [exact Hef|]. split; [exact Hg|]. split; [exact Hc|].
  eexists. split; [vm_compute; reflexivity|].
  apply (css_monotone_in_efficiency sample_frame sample_inputs 60
           (repeat (Some 30%Q) 5) (repeat (Some 80%Q) 5));
    [exact Hpct|exact Hef|apply sample_gas|exact Hg|apply sample_carbon|exact Hc|].
  vm_compute; reflexivity.
Defined.

Lemma css_antitone_in_emission_factor_witness :
  0 < efficiency_pct sample_inputs /\
  (emission_factor_th sample_inputs <= 1 # 10)%Q /\
  cells_nonneg (repeat (Some 80%Q) 5) /\
  exists a1,
    css_column sample_frame sample_inputs = Ok a1 /\
    exists a2,
      css_column sample_frame (with_emission_factor sample_inputs (1 # 10)) = Ok a2 /\
      Forall2 cell_le a2 a1.
Proof.
  assert (Hpct : 0 < efficiency_pct sample_inputs) by reflexivity.
  assert (Hef : (emission_factor_th sample_inputs <= 1 # 10)%Q) by (unfold Qle; simpl; lia).
  assert (Hc : cells_nonneg (repeat (Some 80%Q) 5))
    by (apply constant_cells_nonneg; unfold Qle; simpl; lia).
  split; [exact Hpct|]. split; [exact Hef|]. split; [exact Hc|].
  eexists. split; [vm_compute; reflexivity|].
  apply (css_antitone_in_emission_factor sample_frame sample_inputs (1 # 10)
           (repeat (Some 80%Q) 5));
    [exact Hpct|exact Hef|apply sample_carbon|exact Hc|].
  vm_compute; reflexivity.
Defined.

